(** * A shallow embedding of the diary bot (src/bot.py)

    The development follows the source file from top to bottom: Python
    strings and the string methods the handlers use, [datetime] values,
    the JSON file behind [load_data]/[save_data], the text-generation
    wrapper, the reminder scheduler, the chunked send, the two daily
    routines and the message handler.

    Conventions of the model.
    - A Python [str] is a sequence of Unicode code points: [pystr] is a
      list of code points, so [len], slices and [split] count what Python
      counts.  String literals of the source are written as UTF-8 text and
      decoded by [str].
    - A handler returns the list of [event]s it performs (transport sends,
      spawned reminder coroutines, log lines) together with the new content
      of the data file.  The chat transport is an external collaborator:
      [bot.send_message] is modelled by the event it emits, a transport
      exception is outside the model.
    - The text generator and the wall clock are inputs: [model] answers a
      prompt with a text or with an exception, [clock k] is the value of the
      k-th call of [datetime.now()] inside one handler.
    - A date is represented by its proleptic Gregorian ordinal
      ([date.toordinal()]), from 1 (0001-01-01) to [MAXORDINAL] (9999-12-31);
      arithmetic that leaves this range is [OverflowError].
    - A handler is a function from the data file it finds to the data file
      it leaves.  Between [load_data] and [save_data] every handler awaits,
      and the loop runs other handlers meanwhile: the section on handlers
      that wait plays the handlers in any such order. *)

From Stdlib Require Import ZArith NArith Lia String Ascii.
From stdpp Require Import gmap list.

(** ** Python strings *)

Definition char := N.
Abbreviation pystr := (list char).

(** UTF-8 decoding of a literal of the source text. *)
Fixpoint utf8_decode (bs : list N) : pystr :=
  match bs with
  | [] => []
  | b :: r =>
      if (b <? 128)%N then b :: utf8_decode r
      else if (b <? 224)%N then
        match r with
        | c1 :: r1 => ((b - 192) * 64 + (c1 - 128))%N :: utf8_decode r1
        | _ => []
        end
      else if (b <? 240)%N then
        match r with
        | c1 :: c2 :: r2 =>
            ((b - 224) * 4096 + (c1 - 128) * 64 + (c2 - 128))%N :: utf8_decode r2
        | _ => []
        end
      else
        match r with
        | c1 :: c2 :: c3 :: r3 =>
            ((b - 240) * 262144 + (c1 - 128) * 4096 + (c2 - 128) * 64 + (c3 - 128))%N
              :: utf8_decode r3
        | _ => []
        end
  end.

Definition str (s : string) : pystr :=
  utf8_decode (N_of_ascii <$> list_ascii_of_string s).

Definition NL : char := 10%N.
Definition SPACE : char := 32%N.
Definition COLON : char := 58%N.

(** [str.isspace] on one code point (the interpreter's whitespace table). *)
Definition py_isspace (c : char) : bool :=
  ((9 <=? c) && (c <=? 13) || (28 <=? c) && (c <=? 32)
   || (c =? 133) || (c =? 160) || (c =? 5760)
   || (8192 <=? c) && (c <=? 8202)
   || (c =? 8232) || (c =? 8233) || (c =? 8239) || (c =? 8287)
   || (c =? 12288))%N.

Fixpoint lstrip (s : pystr) : pystr :=
  match s with
  | c :: r => if py_isspace c then lstrip r else s
  | [] => []
  end.

Definition rstrip (s : pystr) : pystr := reverse (lstrip (reverse s)).

(** [s.strip()] *)
Definition strip (s : pystr) : pystr := rstrip (lstrip s).

(** [s.split(sep)] for a one-character separator: every occurrence splits,
    empty pieces are kept, the result is never empty. *)
Fixpoint split_on (sep : char) (s : pystr) : list pystr :=
  match s with
  | [] => [[]]
  | c :: r =>
      if (c =? sep)%N then [] :: split_on sep r
      else match split_on sep r with
           | h :: t => (c :: h) :: t
           | [] => [[c]]
           end
  end.

(** [a, b = s.split(sep, 1)]: the text before and after the first
    separator; [None] is the [ValueError] of unpacking a one-element list. *)
Fixpoint split_first (sep : char) (s : pystr) : option (pystr * pystr) :=
  match s with
  | [] => None
  | c :: r =>
      if (c =? sep)%N then Some ([], r)
      else '(a, b) ← split_first sep r; Some (c :: a, b)
  end.

(** ** Decimal digits

    The pattern [\d] of a [str] regular expression and [int()] accept every
    character of Unicode category Nd.  These characters come in runs of ten
    consecutive code points with values 0 to 9; the table lists the first
    code point of each run (Unicode 14.0, the table of CPython 3.11). *)
Definition Nd_starts : list N :=
  [48; 1632; 1776; 1984; 2406; 2534; 2662; 2790; 2918; 3046; 3174; 3302;
   3430; 3558; 3664; 3792; 3872; 4160; 4240; 6112; 6160; 6470; 6608; 6784;
   6800; 6992; 7088; 7232; 7248; 42528; 43216; 43264; 43472; 43504; 43600;
   44016; 65296; 66720; 68912; 69734; 69872; 69942; 70096; 70384; 70736;
   70864; 71248; 71360; 71472; 71904; 72016; 72784; 73040; 73120; 92768;
   92864; 93008; 120782; 120792; 120802; 120812; 120822; 123200; 123632;
   125264; 130032]%N.

(** [unicodedata.decimal(c)], [None] when [c] is not a decimal digit. *)
Definition py_decimal (c : char) : option N :=
  (λ s, (c - s)%N) <$> List.find (λ s, (s <=? c) && (c <? s + 10))%N Nd_starts.

Definition is_digit (c : char) : bool :=
  match py_decimal c with Some _ => true | None => false end.

(** An ASCII character class [[lo-hi]]. *)
Definition in_class (lo hi c : char) : bool := ((lo <=? c) && (c <=? hi))%N.
Arguments in_class (lo hi c)%_N_scope.

(** The value of a digit, as [int] reads it. *)
Definition digit_value (c : char) : Z := Z.of_N (default 0%N (py_decimal c)).

(** [int(s)] on a string of decimal digits. *)
Definition py_int (s : pystr) : Z :=
  foldl (λ acc c, acc * 10 + digit_value c)%Z 0%Z s.

(** ** [datetime.strptime(s, "%H:%M")]

    The format compiles to the regular expression
    [(?P<H>2[0-3]|[0-1]\d|\d):(?P<M>[0-5]\d|\d)], matched at the start of
    the string, alternatives tried from left to right; a match that does
    not reach the end of the string is the error "unconverted data
    remains".  Each function below lists the ways one group can match, in
    the order the matcher tries them, as (matched text, rest). *)
Definition alts_H (s : pystr) : list (pystr * pystr) :=
  match s with
  | a :: b :: r =>
      (if (a =? 50)%N && in_class 48 51 b then [([a; b], r)] else [])
      ++ (if in_class 48 49 a && is_digit b then [([a; b], r)] else [])
      ++ (if is_digit a then [([a], b :: r)] else [])
  | [a] => if is_digit a then [([a], [])] else []
  | [] => []
  end.

Definition alts_M (s : pystr) : list (pystr * pystr) :=
  match s with
  | a :: b :: r =>
      (if in_class 48 53 a && is_digit b then [([a; b], r)] else [])
      ++ (if is_digit a then [([a], b :: r)] else [])
  | [a] => if is_digit a then [([a], [])] else []
  | [] => []
  end.

(** The first match of the whole pattern: hour text, minute text, rest. *)
Definition re_match_HM (s : pystr) : option (pystr * pystr * pystr) :=
  head ('(h, r1) ← alts_H s;
        match r1 with
        | c :: r2 =>
            if (c =? COLON)%N then '(m, r3) ← alts_M r2; [(h, m, r3)] else []
        | [] => []
        end).

(** Hour and minute of the parsed time; [None] is [ValueError]. *)
Definition strptime_HM (s : pystr) : option (Z * Z) :=
  match re_match_HM s with
  | Some (h, m, []) => Some (py_int h, py_int m)
  | _ => None
  end.

(** ** [datetime] and [timedelta]

    A [timedelta] is a number of microseconds.  Arithmetic goes through the
    number of microseconds since the start of ordinal 0, as Python's does;
    comparison is field by field. *)
Record datetime := mk_datetime {
  dt_day : Z;          (* date.toordinal() *)
  dt_hour : Z;
  dt_minute : Z;
  dt_second : Z;
  dt_micro : Z
}.

Definition timedelta := Z.
Definition td_minutes (n : Z) : timedelta := (n * 60000000)%Z.
Definition td_days (n : Z) : timedelta := (n * 86400000000)%Z.

Definition to_us (d : datetime) : Z :=
  ((((dt_day d * 24 + dt_hour d) * 60 + dt_minute d) * 60 + dt_second d) * 1000000
   + dt_micro d)%Z.

Definition of_us (u : Z) : datetime :=
  {| dt_day := u / 86400000000;
     dt_hour := (u / 3600000000) mod 24;
     dt_minute := (u / 60000000) mod 60;
     dt_second := (u / 1000000) mod 60;
     dt_micro := u mod 1000000 |}%Z.

(** [date.max.toordinal()], the ordinal of 9999-12-31 *)
Definition MAXORDINAL : Z := 3652059.

Definition in_range (d : datetime) : bool :=
  ((1 <=? dt_day d) && (dt_day d <=? MAXORDINAL))%Z.

(** [d - td] and [d + td]; [None] is the [OverflowError] of a result
    outside the range of dates. *)
Definition dt_sub (d : datetime) (td : timedelta) : option datetime :=
  let r := of_us (to_us d - td) in if in_range r then Some r else None.
Definition dt_add (d : datetime) (td : timedelta) : option datetime :=
  let r := of_us (to_us d + td) in if in_range r then Some r else None.
(** [a - b] on two datetimes *)
Definition dt_diff (a b : datetime) : timedelta := (to_us a - to_us b)%Z.

(** [d.replace(hour=h, minute=m, second=s, microsecond=us)] *)
Definition dt_replace (d : datetime) (h m s us : Z) : datetime :=
  {| dt_day := dt_day d; dt_hour := h; dt_minute := m; dt_second := s; dt_micro := us |}.

Definition dt_fields (d : datetime) : list Z :=
  [dt_day d; dt_hour d; dt_minute d; dt_second d; dt_micro d].

Fixpoint lex_ltb (a b : list Z) : bool :=
  match a, b with
  | x :: a', y :: b' => (x <? y)%Z || ((x =? y)%Z && lex_ltb a' b')
  | [], _ :: _ => true
  | _, [] => false
  end.

(** [a < b] on two datetimes *)
Definition dt_ltb (a b : datetime) : bool := lex_ltb (dt_fields a) (dt_fields b).

(** The value of [datetime.strptime(s, "%H:%M")]: the time on 1900-01-01. *)
Definition strptime (s : pystr) : option datetime :=
  '(h, m) ← strptime_HM s;
  Some {| dt_day := 693596; dt_hour := h; dt_minute := m; dt_second := 0; dt_micro := 0 |}.

(** ** Effects *)
Inductive event :=
| SendMessage (chat_id text : pystr)
    (* await bot.send_message(chat_id=chat_id, text=text) *)
| RunCoroutine (chat_id task : pystr) (delay : timedelta)
    (* asyncio.run_coroutine_threadsafe(delayed_send_reminder(chat_id, task, delay), loop);
       the float of seconds the source passes is [delay] / 10^6 *)
| LogError (msg : pystr).
    (* logging.error(f"{msg}{e}") *)

(** ** Literals of the source *)
Definition FALLBACK : pystr := Eval vm_compute in str "Сейчас не могу ответить.".
Definition LOG_GEMINI : pystr := Eval vm_compute in str "Ошибка Gemini: ".
Definition LOG_SCHEDULE : pystr := Eval vm_compute in str "Ошибка планирования задачи: ".
Definition MORNING_PROMPT : pystr :=
  Eval vm_compute in str "Напиши короткое утреннее вдохновляющее сообщение для школьника.".
Definition EVENING_TEXT : pystr := Eval vm_compute in str "🌙 Как прошёл твой день?".
Definition K_DIARY : pystr := Eval vm_compute in str "diary".
Definition K_MODE : pystr := Eval vm_compute in str "mode".
Definition K_TASKS : pystr := Eval vm_compute in str "tasks".
Definition K_TYPE : pystr := Eval vm_compute in str "type".
Definition K_TEXT : pystr := Eval vm_compute in str "text".
Definition PLAN : pystr := Eval vm_compute in str "plan".
Definition SCHEDULE : pystr := Eval vm_compute in str "schedule".
Definition REFLECT : pystr := Eval vm_compute in str "reflect".
Definition T_PLANS : pystr := Eval vm_compute in str "планы".
Definition T_REFLECTION : pystr := Eval vm_compute in str "рефлексия".
Definition SCHEDULE_OK : pystr :=
  Eval vm_compute in
    str "✅ Задания с временем записаны. Буду напоминать за 10 минут до начала!".

(** f"☀️ Доброе утро!\n\n{motivation}\n\nЧто ты хочешь сделать сегодня?" *)
Definition morning_text (motivation : pystr) : pystr :=
  str "☀️ Доброе утро!" ++ [NL; NL] ++ motivation ++ [NL; NL]
  ++ str "Что ты хочешь сделать сегодня?".

(** f"Вот план школьника: {text}\nДай советы и добавь недостающие пункты." *)
Definition plan_prompt (text : pystr) : pystr :=
  str "Вот план школьника: " ++ text ++ [NL]
  ++ str "Дай советы и добавь недостающие пункты.".

Definition plan_reply (ai_reply : pystr) : pystr :=
  str "✅ План записан и дополнен ИИ:" ++ [NL; NL] ++ ai_reply ++ [NL; NL]
  ++ str "Теперь напиши каждое задание с указанием времени. Например:" ++ [NL; NL]
  ++ str "8:00 Математика" ++ [NL] ++ str "9:30 Прогулка" ++ [NL] ++ str "...".

(** f"⚠️ Неверный формат строки: '{line}'. Используй формат 'HH:MM Задание'" *)
Definition bad_line_text (line : pystr) : pystr :=
  str "⚠️ Неверный формат строки: '" ++ line
  ++ str "'. Используй формат 'HH:MM Задание'".

Definition reflect_prompt (text : pystr) : pystr :=
  str "Вот дневниковая запись школьника: '" ++ text
  ++ str "'. Ответь поддержкой или советом.".

Definition reflect_reply (reply : pystr) : pystr := str "💬 " ++ reply.

Definition free_prompt (text : pystr) : pystr := str "Пользователь пишет: " ++ text.

(** ** The data model

    A task is the pair [(time_part, task_part)].  The handler builds it as a
    tuple; read back from the data file it is a two-element list, and Python
    does not equate the two, so the record keeps which one it is. *)
Inductive seq_kind := PyTuple | PyList.

Record Task := mk_task { task_kind : seq_kind; task_time : pystr; task_desc : pystr }.

(** {"type": ..., "text": ...} *)
Record DiaryEntry := mk_entry { entry_type : pystr; entry_text : pystr }.

(** {"diary": [...], "mode": ..., "tasks": [...]} *)
Record ChatRecord := mk_record {
  diary : list DiaryEntry;
  mode : option pystr;
  tasks : list Task
}.

Abbreviation Store := (gmap pystr ChatRecord).

#[global] Instance seq_kind_eq_dec : EqDecision seq_kind.
Proof. solve_decision. Defined.
#[global] Instance Task_eq_dec : EqDecision Task.
Proof. solve_decision. Defined.
#[global] Instance DiaryEntry_eq_dec : EqDecision DiaryEntry.
Proof. solve_decision. Defined.
#[global] Instance ChatRecord_eq_dec : EqDecision ChatRecord.
Proof. solve_decision. Defined.

(** {"diary": [], "mode": None, "tasks": []} *)
Definition new_record : ChatRecord := {| diary := []; mode := None; tasks := [] |}.

Definition append_diary (e : DiaryEntry) (r : ChatRecord) : ChatRecord :=
  {| diary := diary r ++ [e]; mode := mode r; tasks := tasks r |}.
Definition set_mode (m : option pystr) (r : ChatRecord) : ChatRecord :=
  {| diary := diary r; mode := m; tasks := tasks r |}.
Definition set_tasks (ts : list Task) (r : ChatRecord) : ChatRecord :=
  {| diary := diary r; mode := mode r; tasks := ts |}.

(** ** The data file

    [json.dump] and [json.load] are modelled on JSON documents, not on their
    text: [None] is written as null, a [str] as a string, a list and a
    tuple both as an array, a dict as an object; an array is read back as a
    list.  An object lists its members in an order; the model writes a dict
    in the order of [map_to_list], which is not Python's insertion order,
    and reads an object like [json.load], the last of two equal keys
    winning. *)
#[local] Unset Elimination Schemes.
Inductive json :=
| JNull
| JStr (s : pystr)
| JArr (items : list json)
| JObj (members : list (pystr * json)).
#[local] Set Elimination Schemes.

Definition dump_task (t : Task) : json := JArr [JStr (task_time t); JStr (task_desc t)].
Definition dump_entry (e : DiaryEntry) : json :=
  JObj [(K_TYPE, JStr (entry_type e)); (K_TEXT, JStr (entry_text e))].
Definition dump_mode (m : option pystr) : json :=
  match m with None => JNull | Some s => JStr s end.
Definition dump_record (r : ChatRecord) : json :=
  JObj [(K_DIARY, JArr (dump_entry <$> diary r));
        (K_MODE, dump_mode (mode r));
        (K_TASKS, JArr (dump_task <$> tasks r))].
Definition dump_store (data : Store) : json :=
  JObj (prod_map id dump_record <$> map_to_list data).

(** [d[k]] on the dict read from an object. *)
Fixpoint jget (k : pystr) (members : list (pystr * json)) : option json :=
  match members with
  | [] => None
  | (k', v) :: rest =>
      match jget k rest with
      | Some w => Some w
      | None => if decide (k' = k) then Some v else None
      end
  end.

Definition parse_str (j : json) : option pystr :=
  match j with JStr s => Some s | _ => None end.
Definition parse_task (j : json) : option Task :=
  match j with
  | JArr [JStr t; JStr d] => Some {| task_kind := PyList; task_time := t; task_desc := d |}
  | _ => None
  end.
Definition parse_entry (j : json) : option DiaryEntry :=
  match j with
  | JObj ms =>
      ty ← jget K_TYPE ms ≫= parse_str;
      tx ← jget K_TEXT ms ≫= parse_str;
      Some {| entry_type := ty; entry_text := tx |}
  | _ => None
  end.
Definition parse_mode (j : json) : option (option pystr) :=
  match j with JNull => Some None | JStr s => Some (Some s) | _ => None end.
Definition parse_array {A} (f : json → option A) (j : json) : option (list A) :=
  match j with JArr l => mapM f l | _ => None end.
Definition parse_record (j : json) : option ChatRecord :=
  match j with
  | JObj ms =>
      d ← jget K_DIARY ms ≫= parse_array parse_entry;
      m ← jget K_MODE ms ≫= parse_mode;
      t ← jget K_TASKS ms ≫= parse_array parse_task;
      Some {| diary := d; mode := m; tasks := t |}
  | _ => None
  end.
Definition parse_member (kv : pystr * json) : option (pystr * ChatRecord) :=
  r ← parse_record kv.2; Some (kv.1, r).
(** A document that is not a store of chat records is [None]: the handlers
    are not defined on it. *)
Definition parse_store (j : json) : option Store :=
  match j with
  | JObj ms => l ← mapM parse_member ms; Some (list_to_map (reverse l))
  | _ => None
  end.

(** The content of data.json; [None] when the file does not exist. *)
Definition file := option json.

Definition load_data (f : file) : option Store :=
  match f with
  | Some j => parse_store j
  | None => Some ∅
  end.

Definition save_data (data : Store) : file := Some (dump_store data).

(** What equality of Python values sees of a store after a round trip
    through the file: every task is a list. *)
Definition as_list (t : Task) : Task :=
  {| task_kind := PyList; task_time := task_time t; task_desc := task_desc t |}.
Definition listify_record (r : ChatRecord) : ChatRecord :=
  {| diary := diary r; mode := mode r; tasks := as_list <$> tasks r |}.
Definition listify (data : Store) : Store := listify_record <$> data.

(** ** Text generation *)

(** What [model.generate_content(prompt)] followed by [response.text] does:
    it yields a text or raises an [Exception]. *)
Inductive response := Response (text : pystr) | Raises.
Definition generator := pystr → response.

Definition generate_message (model : generator) (prompt : pystr) : pystr * list event :=
  match model prompt with
  | Response text => (strip text, [])
  | Raises => (FALLBACK, [LogError LOG_GEMINI])
  end.

(** The handlers are stated for a text generator that answers or raises an
    [Exception].  The wrapper itself is also given with every way the call
    can end: what is raised is an [Exception], which [except Exception]
    catches, or another [BaseException] ([asyncio.CancelledError],
    [KeyboardInterrupt]), which it does not catch. *)
Inductive raised := AnException | ABaseException.
Inductive call := Answers (text : pystr) | Fails (e : raised).
(** What the caller of [generate_message] gets. *)
Inductive outcome := Returns (s : pystr) | Propagates (e : raised).

Definition generate_message_call (r : call) : outcome * list event :=
  match r with
  | Answers text => (Returns (strip text), [])
  | Fails AnException => (Returns FALLBACK, [LogError LOG_GEMINI])
  | Fails ABaseException => (Propagates ABaseException, [])
  end.

Definition call_of (r : response) : call :=
  match r with
  | Response text => Answers text
  | Raises => Fails AnException
  end.

(** The generator that answers the fallback text where [model] raises. *)
Definition recovered (model : generator) : generator :=
  λ prompt, match model prompt with
            | Response text => Response text
            | Raises => Response FALLBACK
            end.

(** ** Reminders *)


(** The final value of the local [scheduled_time] of [schedule_task];
    [None] when the body of the [try] raises: [ValueError] from [strptime],
    [OverflowError] from an addition or a subtraction. *)
Definition scheduled_time (now : datetime) (time_str : pystr) : option datetime :=
  parsed ← strptime time_str;
  task_time ← dt_sub parsed (td_minutes 10);
  let scheduled := dt_replace now (dt_hour task_time) (dt_minute task_time) 0 0 in
  if dt_ltb scheduled now then dt_add scheduled (td_days 1) else Some scheduled.

Definition schedule_task (now : datetime) (chat_id time_str task : pystr) : list event :=
  match scheduled_time now time_str with
  | Some scheduled => [RunCoroutine chat_id task (dt_diff scheduled now)]
  | None => [LogError LOG_SCHEDULE]
  end.

(** ** Chunked send *)

Definition MAX_LEN : nat := 4096.

(** [range(0, stop, step)] for a positive step. *)
Definition py_range (stop step : nat) : list nat :=
  (λ k, k * step) <$> seq 0 ((stop + step - 1) / step).

(** [s[i:j]] for [i <= j] *)
Definition slice (s : pystr) (i j : nat) : pystr := take (j - i) (drop i s).

Definition chunks (n : nat) (text : pystr) : list pystr :=
  (λ i, slice text i (i + n)) <$> py_range (length text) n.

Definition send_long_message (chat_id text : pystr) : list event :=
  SendMessage chat_id <$> chunks MAX_LEN text.

(** ** The daily routines

    The loop visits the chats in the order of the dict; the model visits
    them in the order of [map_to_list].  [models chat_id] is the text
    generator as it answers during the visit of [chat_id]. *)
Definition morning_routine (models : pystr → generator) (f : file)
    : option (file * list event) :=
  data ← load_data f;
  let evs :=
    '(chat_id, _) ← map_to_list data;
    let '(motivation, ev) := generate_message (models chat_id) MORNING_PROMPT in
    ev ++ send_long_message chat_id (morning_text motivation) in
  Some (save_data (set_mode (Some PLAN) <$> data), evs).

Definition evening_routine (f : file) : option (file * list event) :=
  data ← load_data f;
  let evs := '(chat_id, _) ← map_to_list data; [SendMessage chat_id EVENING_TEXT] in
  Some (save_data (set_mode (Some REFLECT) <$> data), evs).

(** ** The message handler *)

(** [if chat_id not in data: data[chat_id] = {...}] *)
Definition ensure_record (chat_id : pystr) (data : Store) : Store :=
  match data !! chat_id with
  | Some _ => data
  | None => <[chat_id := new_record]> data
  end.

(** The body of the [try] of the schedule loop; [None] is [ValueError]. *)
Definition parse_line (line : pystr) : option (pystr * pystr) :=
  '(time_part, task_part) ← split_first SPACE line;
  _ ← strptime time_part;
  Some (time_part, task_part).

(** The [for line in lines] loop, from the line with index [k] on:
    [tasks] is the list built so far; the result is the final list, or
    [None] when a line was refused and the handler returned. *)
Fixpoint schedule_lines (clock : nat → datetime) (chat_id : pystr)
    (lines : list pystr) (k : nat) (tasks : list Task)
    : option (list Task) * list event :=
  match lines with
  | [] => (Some tasks, [])
  | line :: rest =>
      match parse_line line with
      | Some (time_part, task_part) =>
          let tasks := tasks ++ [mk_task PyTuple time_part task_part] in
          let ev := schedule_task (clock k) chat_id time_part task_part in
          let '(res, evs) := schedule_lines clock chat_id rest (S k) tasks in
          (res, ev ++ evs)
      | None => (None, [SendMessage chat_id (bad_line_text line)])
      end
  end.

(** The body of [handle_message] between [load_data] and [save_data]: the
    dict that reaches [save_data], or [None] when the handler returns
    early, and the events. *)
Definition handle_message_body (model : generator) (clock : nat → datetime)
    (data : Store) (chat_id text : pystr) : option Store * list event :=
  let data := ensure_record chat_id data in
  let mode_ := data !! chat_id ≫= mode in
  if decide (mode_ = Some PLAN) then
    let data := alter (append_diary (mk_entry T_PLANS text)) chat_id data in
    let '(ai_reply, ev1) := generate_message model (plan_prompt text) in
    let ev2 := send_long_message chat_id (plan_reply ai_reply) in
    let data := alter (set_mode (Some SCHEDULE)) chat_id data in
    (Some data, ev1 ++ ev2)
  else if decide (mode_ = Some SCHEDULE) then
    let lines := split_on NL (strip text) in
    match schedule_lines clock chat_id lines 0 [] with
    | (None, evs) => (None, evs)
    | (Some tasks_, evs) =>
        let data := alter (set_tasks tasks_) chat_id data in
        let data := alter (set_mode None) chat_id data in
        (Some data, evs ++ [SendMessage chat_id SCHEDULE_OK])
    end
  else if decide (mode_ = Some REFLECT) then
    let data := alter (append_diary (mk_entry T_REFLECTION text)) chat_id data in
    let '(reply, ev1) := generate_message model (reflect_prompt text) in
    let ev2 := send_long_message chat_id (reflect_reply reply) in
    let data := alter (set_mode None) chat_id data in
    (Some data, ev1 ++ ev2)
  else
    let '(response, ev1) := generate_message model (free_prompt text) in
    let ev2 := send_long_message chat_id response in
    (Some data, ev1 ++ ev2).

(** [handle_message]: the new content of the data file and the events; the
    result is [None] when the data file cannot be read. *)
Definition handle_message (model : generator) (clock : nat → datetime)
    (f : file) (chat_id text : pystr) : option (file * list event) :=
  data ← load_data f;
  let '(saved, evs) := handle_message_body model clock data chat_id text in
  Some (from_option save_data f saved, evs).

(** The record of a chat as the data file holds it. *)
Definition persisted (f : file) (chat_id : pystr) : option ChatRecord :=
  load_data f ≫= (.!! chat_id).

(** Modelled from the spec: the handler of the [/start] command, which the
    source file does not contain.  "Idempotently ensures a ChatRecord
    exists (creating with defaults if absent) and sends a fixed greeting;
    does not alter an existing record's mode."  The greeting is a
    parameter. *)
Definition start (greeting : pystr) (f : file) (chat_id : pystr)
    : option (file * list event) :=
  data ← load_data f;
  Some (save_data (ensure_record chat_id data), [SendMessage chat_id greeting]).

(** ** Handlers that wait

    Every handler reads the data file first and writes it last, and awaits
    in between (the text generator, the transport); the routines await in
    their loop over the chats.  While a handler waits, the loop runs others.
    What a handler will save is fixed by what it read: a waiting handler is
    the dict it will pass to [save_data], or [None] when it will return
    without saving.  A handler that meets no wait is played by its arrival
    followed at once by its end. *)
Inductive job :=
| Message (chat_id text : pystr) (model : generator) (clock : nat → datetime)
| Start (chat_id : pystr)
| Morning (models : pystr → generator)
| Evening.

(** What a job that finds the data file [f] will save; the outer [None]
    is a data file that cannot be read.  The job of [/start] is modelled
    from the spec, like [start]. *)
Definition pending (j : job) (f : file) : option (option Store) :=
  data ← load_data f;
  Some match j with
       | Message chat_id text model clock =>
           (handle_message_body model clock data chat_id text).1
       | Start chat_id => Some (ensure_record chat_id data)
       | Morning _ => Some (set_mode (Some PLAN) <$> data)
       | Evening => Some (set_mode (Some REFLECT) <$> data)
       end.

(** The data file and the handlers that wait, oldest first. *)
Record world := mk_world { disk : file; waiting : list (option Store) }.

(** A job starts and reads the file, or the waiting handler of index [i]
    goes on to its end. *)
Inductive move := Arrive (j : job) | Resume (i : nat).

Definition play (w : world) (m : move) : world :=
  match m with
  | Arrive j =>
      match pending j (disk w) with
      | Some p => {| disk := disk w; waiting := waiting w ++ [p] |}
      | None => w
      end
  | Resume i =>
      match waiting w !! i with
      | Some p => {| disk := from_option save_data (disk w) p;
                     waiting := delete i (waiting w) |}
      | None => w
      end
  end.

Definition plays (w : world) (moves : list move) : world := foldl play w moves.

(** The chat that sent a job, if a chat sent it. *)
Definition sender (j : job) : option pystr :=
  match j with
  | Message chat_id _ _ _ | Start chat_id => Some chat_id
  | Morning _ | Evening => None
  end.

(** ** Vocabulary of the statements *)

(** The texts of the transport sends of a trace, in order. *)
Definition sent_texts (evs : list event) : list pystr :=
  omap (λ e, match e with SendMessage _ t => Some t | _ => None end) evs.

(** The record the handler works on, and the dict after the first-contact
    test. *)
Definition current (data : Store) (c : pystr) : ChatRecord :=
  default new_record (data !! c).

(** The reminders the schedule loop spawns for accepted lines, the first
    of which is the [k]-th line of the loop. *)
Fixpoint reminders (clock : nat → datetime) (c : pystr) (lines : list pystr) (k : nat)
    : list event :=
  match lines with
  | [] => []
  | line :: rest =>
      match parse_line line with
      | Some (time_part, task_part) => schedule_task (clock k) c time_part task_part
      | None => []
      end ++ reminders clock c rest (S k)
  end.

(** The task a schedule line stands for: the text before the first space
    and the text after it. *)
Definition line_of_task (line : pystr) (t : Task) : Prop :=
  split_first SPACE line = Some (task_time t, task_desc t).

(** What handling a text in a given mode adds to the diary. *)
Definition diary_gain (m : option pystr) (text : pystr) : list DiaryEntry :=
  if decide (m = Some PLAN) then [mk_entry T_PLANS text]
  else if decide (m = Some REFLECT) then [mk_entry T_REFLECTION text]
  else [].

(** The clock time ten minutes before [h:m], in minutes after midnight. *)
Definition lead_minutes (h m : Z) : Z := ((h * 60 + m - 10) mod 1440)%Z.

(** The reminder moment on the day with ordinal [day]: the clock time ten
    minutes before [h:m], seconds and microseconds zero. *)
Definition reminder_on (day h m : Z) : datetime :=
  {| dt_day := day;
     dt_hour := lead_minutes h m / 60;
     dt_minute := lead_minutes h m mod 60;
     dt_second := 0;
     dt_micro := 0 |}.

(** The file holds the chat [c], written by [save_data], and so does what
    every waiting handler will save. *)
Definition holds (c : pystr) (w : world) : Prop :=
  (∃ d, disk w = save_data d ∧ is_Some (d !! c))
  ∧ Forall (λ p, ∀ d, p = Some d → is_Some (d !! c)) (waiting w).

(** ** Sample data: the scenarios of the specification *)

Definition chat42 : pystr := Eval vm_compute in str "42".
Definition store42 (m : option pystr) : Store := {[ chat42 := mk_record [] m [] ]}.
Definition file42 (m : option pystr) : file := save_data (store42 m).
(** A text generator that is out of order, and a clock that shows seven in
    the morning. *)
Definition silent : generator := λ _, Raises.
Definition seven_oclock : nat → datetime := λ _, mk_datetime 739000 7 0 0 0.
Definition two_lines : pystr := str "8:00 Math" ++ [NL] ++ str "9:30 Walk".
(** A schedule after an empty line, and one whose refused line ends with a
    space. *)
Definition after_blank_line : pystr := NL :: str "8:00 Math".
Definition bad_line_with_space : pystr := str "8:00 Math" ++ [NL] ++ str "badline ".
Definition bad_second_line : pystr := str "8:00 Math" ++ [NL] ++ str "badline".
Definition homework : pystr := str "Finish math homework, go for a run.".
(** The dict the handler passes to [save_data] for the one-line schedule
    "8:00 Math". *)
Definition saved42 : Store :=
  {[ chat42 := mk_record [] None [mk_task PyTuple (str "8:00") (str "Math")] ]}.

(** The stored tasks of a chat after a handler ran, as pairs of texts. *)
Definition stored_pairs (res : option (file * list event)) (c : pystr)
    : option (list (pystr * pystr)) :=
  '(f', _) ← res;
  r ← persisted f' c;
  Some ((λ t, (task_time t, task_desc t)) <$> tasks r).

(** The stored diary of a chat after a handler ran. *)
Definition stored_diary (res : option (file * list event)) (c : pystr)
    : option (list DiaryEntry) :=
  '(f', _) ← res;
  r ← persisted f' c;
  Some (diary r).

(** ** Vocabulary of the further properties *)

(** [sep.join(parts)] *)
Fixpoint join (sep : char) (parts : list pystr) : pystr :=
  match parts with
  | [] => []
  | p :: rest =>
      match rest with
      | [] => p
      | _ :: _ => p ++ sep :: join sep rest
      end
  end.

(** A text made of white space only. *)
Definition all_space (s : pystr) : Prop := Forall (λ c, py_isspace c = true) s.

(** A text that neither starts nor ends with white space. *)
Definition trimmed (s : pystr) : Prop :=
  (∀ c, head s = Some c → py_isspace c = false)
  ∧ (∀ c, last s = Some c → py_isspace c = false).

(** The text of a time of day: [ascii_digit d] is the character of the
    digit [d], [two_digits n] is ["%02d" % n], [time_text h m] is
    ["%02d:%02d" % (h, m)] and [short_time_text h m] is ["%d:%02d" % (h, m)]
    for an hour of one digit. *)
Definition ascii_digit (d : Z) : char := Z.to_N (48 + d).
Definition two_digits (n : Z) : pystr := [ascii_digit (n / 10); ascii_digit (n mod 10)].
Definition time_text (h m : Z) : pystr := two_digits h ++ COLON :: two_digits m.
Definition short_time_text (h m : Z) : pystr := ascii_digit h :: COLON :: two_digits m.

(** The time fields of a [datetime] that the interpreter can build, and a
    value [datetime.now()] can return. *)
Definition valid_datetime (d : datetime) : Prop :=
  (0 ≤ dt_hour d < 24 ∧ 0 ≤ dt_minute d < 60
   ∧ 0 ≤ dt_second d < 60 ∧ 0 ≤ dt_micro d < 1000000)%Z.
Definition clock_reading (d : datetime) : Prop :=
  valid_datetime d ∧ (1 ≤ dt_day d ≤ MAXORDINAL)%Z.

(** An event that concerns the chat [c]: a send to it or a reminder for it;
    a log line concerns no chat. *)
Definition addressed_to (c : pystr) (e : event) : Prop :=
  match e with
  | SendMessage c' _ | RunCoroutine c' _ _ => c' = c
  | LogError _ => True
  end.

(** The texts a trace sends to the chat [c], in order. *)
Definition texts_to (c : pystr) (evs : list event) : list pystr :=
  omap (λ e, match e with
             | SendMessage c' t => if decide (c' = c) then Some t else None
             | _ => None
             end) evs.

(** The reply of the handler outside schedule mode, before it is cut into
    parts. *)
Definition reply_text (model : generator) (m : option pystr) (text : pystr) : pystr :=
  if decide (m = Some PLAN) then plan_reply (generate_message model (plan_prompt text)).1
  else if decide (m = Some REFLECT)
       then reflect_reply (generate_message model (reflect_prompt text)).1
       else (generate_message model (free_prompt text)).1.

(** Whether every line of a schedule text is accepted. *)
Definition accepted (text : pystr) : bool :=
  forallb (λ line, bool_decide (is_Some (parse_line line))) (split_on NL (strip text)).

(** The table of the modes: the mode after a text was handled in mode [m]. *)
Definition next_mode (m : option pystr) (text : pystr) : option pystr :=
  if decide (m = Some PLAN) then Some SCHEDULE
  else if decide (m = Some SCHEDULE) then (if accepted text then None else Some SCHEDULE)
  else if decide (m = Some REFLECT) then None
  else m.

(** The modes and the diary entry types the program writes. *)
Definition known_mode (m : option pystr) : Prop :=
  m = None ∨ m = Some PLAN ∨ m = Some SCHEDULE ∨ m = Some REFLECT.
Definition known_entry (e : DiaryEntry) : Prop :=
  entry_type e = T_PLANS ∨ entry_type e = T_REFLECTION.
Definition sound_record (r : ChatRecord) : Prop :=
  known_mode (mode r) ∧ Forall known_entry (diary r).
Definition sound_store (data : Store) : Prop :=
  ∀ k r, data !! k = Some r → sound_record r.

(** A reminder for the description of a schedule line, due in less than a
    day. *)
Definition reminder_of (c line : pystr) (e : event) : Prop :=
  ∃ time_part task_part delay,
    parse_line line = Some (time_part, task_part)
    ∧ e = RunCoroutine c task_part delay
    ∧ (0 ≤ delay < 86400000000)%Z.

(** A day of one chat: the morning routine, the plan of the chat, its
    schedule, the evening routine and its reflection, one after the other;
    the result is the data file at the end of the day. *)
Definition day (models : pystr → generator) (model : generator) (clock : nat → datetime)
    (c plan schedule reflection : pystr) (f : file) : option file :=
  '(f1, _) ← morning_routine models f;
  '(f2, _) ← handle_message model clock f1 c plan;
  '(f3, _) ← handle_message model clock f2 c schedule;
  '(f4, _) ← evening_routine f3;
  '(f5, _) ← handle_message model clock f4 c reflection;
  Some f5.

(** * Properties *)

(** ** Sanity checks of the string model *)

Example strptime_8_00 : strptime_HM (str "8:00") = Some (8, 0)%Z.
Proof. reflexivity. Qed.

Example strptime_rejects_24 : strptime_HM (str "24:00") = None.
Proof. reflexivity. Qed.

Example strptime_unconverted : strptime_HM (str "12:345") = None.
Proof. reflexivity. Qed.

Example strptime_other_digits :
  strptime_HM [49; 1635; COLON; 1632]%N = Some (13, 0)%Z.
Proof. reflexivity. Qed.

Example split_first_time :
  split_first SPACE (str "8:00 Math is fun") = Some (str "8:00", str "Math is fun").
Proof. reflexivity. Qed.

Example split_lines_example :
  split_on NL (strip (str " 8:00 Math" ++ [NL] ++ str "9:30 Walk" ++ [NL; NL]))
  = [str "8:00 Math"; str "9:30 Walk"].
Proof. reflexivity. Qed.

(** ** Chunked send *)

Section Chunks.
Variable n : nat.
Hypothesis n_pos : 0 < n.

Lemma chunks_upto (text : pystr) (c : nat) :
  concat ((λ i, slice text i (i + n)) <$> ((λ k, k * n) <$> seq 0 c))
  = take (c * n) text.
Proof.
  induction c as [|c IH]; [done|].
  rewrite seq_S, !fmap_app, concat_app, IH. simpl.
  rewrite app_nil_r. unfold slice.
  replace (c * n + n - c * n) with n by lia.
  rewrite take_take_drop. f_equal. lia.
Qed.

Lemma range_covers (len : nat) : len ≤ (len + n - 1) / n * n.
Proof.
  pose proof (Nat.div_mod_eq (len + n - 1) n) as Hdm.
  pose proof (Nat.mod_upper_bound (len + n - 1) n ltac:(lia)) as Hlt.
  lia.
Qed.

Lemma concat_chunks (text : pystr) : concat (chunks n text) = text.
Proof.
  unfold chunks, py_range. rewrite chunks_upto.
  apply take_ge, range_covers.
Qed.

Lemma chunks_bounded (text : pystr) : Forall (λ p, length p ≤ n) (chunks n text).
Proof.
  unfold chunks. apply Forall_fmap, Forall_forall. intros i _. simpl.
  unfold slice. rewrite length_take. lia.
Qed.

Lemma length_chunks (text : pystr) :
  length (chunks n text) = (length text + n - 1) / n.
Proof. unfold chunks, py_range. by rewrite !length_fmap, length_seq. Qed.

Lemma chunks_many (text : pystr) : n < length text → 2 ≤ length (chunks n text).
Proof.
  intros Hlen. rewrite length_chunks.
  apply Nat.div_le_lower_bound; lia.
Qed.
End Chunks.

Lemma sent_texts_sends chat_id (parts : list pystr) :
  sent_texts (SendMessage chat_id <$> parts) = parts.
Proof.
  unfold sent_texts. induction parts as [|p parts IH]; [done|].
  csimpl. by f_equal.
Qed.

(** C8: [send_long_message] performs only transport sends to the chat, each
    of at most 4096 characters; the texts sent, concatenated in order, are
    the original text; a text of more than 4096 characters takes at least
    two sends. *)
Theorem send_long_message_chunked (chat_id text : pystr) :
  Forall (λ e, ∃ part, e = SendMessage chat_id part ∧ length part ≤ 4096)
         (send_long_message chat_id text)
  ∧ concat (sent_texts (send_long_message chat_id text)) = text
  ∧ (4096 < length text → 2 ≤ length (send_long_message chat_id text)).
Proof.
  assert (Hpos : 0 < MAX_LEN) by (unfold MAX_LEN; lia).
  unfold send_long_message. split; [|split].
  - apply Forall_fmap.
    eapply Forall_impl; [apply (chunks_bounded MAX_LEN Hpos)|].
    intros p Hp. simpl. by exists p.
  - rewrite sent_texts_sends. by apply concat_chunks.
  - intros Hlen. rewrite length_fmap. by apply chunks_many.
Qed.

Example send_long_message_4097 :
  length <$> sent_texts (send_long_message chat42 (replicate 4097 97%N)) = [4096; 1].
Proof. by vm_compute. Qed.

(** ** Text generation *)


(** ** The data file: writing and reading back *)

Lemma parse_entry_dump (e : DiaryEntry) : parse_entry (dump_entry e) = Some e.
Proof. by destruct e. Qed.

Lemma parse_task_dump (t : Task) : parse_task (dump_task t) = Some (as_list t).
Proof. done. Qed.

Lemma parse_mode_dump (m : option pystr) : parse_mode (dump_mode m) = Some m.
Proof. by destruct m. Qed.

Lemma mapM_fmap_image {A B C} (f : A → option C) (g : B → A) (h : B → C) (l : list B) :
  (∀ x, f (g x) = Some (h x)) → mapM f (g <$> l) = Some (h <$> l).
Proof.
  intros Hfg. apply mapM_Some.
  induction l as [|x l IH]; csimpl; constructor; auto.
Qed.

Lemma parse_record_dump (r : ChatRecord) :
  parse_record (dump_record r) = Some (listify_record r).
Proof.
  unfold parse_record, dump_record.
  change (jget K_DIARY _) with (Some (JArr (dump_entry <$> diary r))).
  change (jget K_MODE _) with (Some (dump_mode (mode r))).
  change (jget K_TASKS _) with (Some (JArr (dump_task <$> tasks r))).
  simpl.
  rewrite (mapM_fmap_image parse_entry dump_entry id) by apply parse_entry_dump.
  rewrite parse_mode_dump.
  rewrite (mapM_fmap_image parse_task dump_task as_list) by apply parse_task_dump.
  simpl. by rewrite list_fmap_id.
Qed.

Lemma parse_member_dump (kv : pystr * ChatRecord) :
  parse_member (prod_map id dump_record kv) = Some (prod_map id listify_record kv).
Proof.
  destruct kv as [k r]. unfold parse_member, prod_map.
  change (parse_record _) with (parse_record (dump_record r)).
  by rewrite parse_record_dump.
Qed.

Lemma list_to_map_reverse {A} (l : list (pystr * A)) :
  NoDup l.*1 → (list_to_map (reverse l) : gmap pystr A) = list_to_map l.
Proof.
  intros Hnd. symmetry. apply list_to_map_proper; [done|].
  symmetry. apply reverse_Permutation.
Qed.

Lemma load_save (data : Store) : load_data (save_data data) = Some (listify data).
Proof.
  unfold load_data, save_data, dump_store, parse_store.
  rewrite (mapM_fmap_image _ _ (prod_map id listify_record)) by apply parse_member_dump.
  simpl. f_equal.
  rewrite list_to_map_reverse.
  - unfold listify. by rewrite list_to_map_fmap, list_to_map_to_list.
  - rewrite <- list_fmap_compose.
    erewrite list_fmap_ext; [apply NoDup_fst_map_to_list|].
    by intros [].
Qed.

Lemma as_list_idemp (t : Task) : as_list (as_list t) = as_list t.
Proof. done. Qed.

Lemma listify_record_idemp (r : ChatRecord) :
  listify_record (listify_record r) = listify_record r.
Proof.
  unfold listify_record. simpl. f_equal.
  rewrite <- list_fmap_compose. by apply list_fmap_ext.
Qed.

Lemma listify_idemp (data : Store) : listify (listify data) = listify data.
Proof.
  unfold listify. rewrite <- map_fmap_compose.
  apply map_fmap_ext. intros k r _. apply listify_record_idemp.
Qed.

(** Everything read from the data file holds its tasks as lists. *)
Lemma parse_task_listified (j : json) (t : Task) :
  parse_task j = Some t → as_list t = t.
Proof.
  unfold parse_task. intros H.
  repeat (case_match; try done). by simplify_eq.
Qed.

Lemma parse_tasks_listified (j : json) (ts : list Task) :
  parse_array parse_task j = Some ts → as_list <$> ts = ts.
Proof.
  destruct j as [| |l|]; try done. simpl. intros Hm.
  apply mapM_Some in Hm.
  induction Hm as [|x y l k Hxy _ IH]; [done|].
  csimpl. rewrite IH. f_equal. by eapply parse_task_listified.
Qed.

Lemma parse_record_listified (j : json) (r : ChatRecord) :
  parse_record j = Some r → listify_record r = r.
Proof.
  destruct j as [| |?|ms]; try done. unfold parse_record.
  intros H. simplify_option_eq.
  unfold listify_record. simpl. f_equal.
  by eapply parse_tasks_listified.
Qed.

Lemma load_data_listified (f : file) (data : Store) :
  load_data f = Some data → listify data = data.
Proof.
  destruct f as [j|]; simpl.
  - destruct j as [| |?|ms]; try done. simpl. intros H. simplify_option_eq.
    match goal with H : mapM _ _ = Some ?l |- _ =>
      rename H into Hm; rename l into ps end.
    unfold listify. rewrite <- list_to_map_fmap. f_equal.
    rewrite fmap_reverse. f_equal.
    apply mapM_Some in Hm.
    induction Hm as [|x y l k Hxy _ IH]; [done|].
    csimpl. rewrite IH. f_equal.
    unfold parse_member in Hxy. simplify_option_eq.
    unfold prod_map. simpl. f_equal. by eapply parse_record_listified.
  - intros [= <-]. apply fmap_empty.
Qed.

Lemma load_save_loaded (f : file) (data : Store) :
  load_data f = Some data → load_data (save_data data) = Some data.
Proof. intros H. rewrite load_save. f_equal. by eapply load_data_listified. Qed.

(** ** The message handler: what reaches [save_data] *)

Lemma alter_present {A} (g : A → A) (m : gmap pystr A) (k : pystr) (x : A) :
  m !! k = Some x → alter g k m = <[k := g x]> m.
Proof.
  intros Hk. apply map_eq. intros j.
  rewrite lookup_alter, lookup_insert.
  case_decide; [subst; by rewrite Hk|done].
Qed.

Lemma ensure_record_lookup (data : Store) (c : pystr) :
  ensure_record c data !! c = Some (default new_record (data !! c)).
Proof.
  unfold ensure_record. destruct (data !! c) eqn:E; simpl; [done|].
  apply lookup_insert_eq.
Qed.

Lemma ensure_record_present (data : Store) (c : pystr) (r : ChatRecord) :
  data !! c = Some r → ensure_record c data = data.
Proof. unfold ensure_record. by intros ->. Qed.

Lemma ensure_record_keeps (data : Store) (c k : pystr) :
  is_Some (data !! k) → is_Some (ensure_record c data !! k).
Proof.
  unfold ensure_record. destruct (data !! c) eqn:E; [done|].
  intros Hk. rewrite lookup_insert. case_decide; [by eexists|done].
Qed.

(** The dict that reaches [save_data], mode by mode. *)
Lemma body_saved (model : generator) (clock : nat → datetime)
    (data : Store) (c text : pystr) :
  let r := current data c in
  let data1 := ensure_record c data in
  (handle_message_body model clock data c text).1 =
    if decide (mode r = Some PLAN) then
      Some (<[c := mk_record (diary r ++ [mk_entry T_PLANS text]) (Some SCHEDULE) (tasks r)]> data1)
    else if decide (mode r = Some SCHEDULE) then
      (λ ts, <[c := mk_record (diary r) None ts]> data1)
        <$> (schedule_lines clock c (split_on NL (strip text)) 0 []).1
    else if decide (mode r = Some REFLECT) then
      Some (<[c := mk_record (diary r ++ [mk_entry T_REFLECTION text]) None (tasks r)]> data1)
    else Some data1.
Proof.
  intros r data1. unfold handle_message_body.
  fold data1. pose proof (ensure_record_lookup data c) as Hr.
  fold data1 in Hr. fold (current data c) in Hr. fold r in Hr.
  rewrite Hr. simpl.
  repeat case_decide.
  - destruct (generate_message _ _) as [ai ev1]. simpl. f_equal.
    rewrite (alter_present _ data1 c r Hr).
    rewrite (alter_present _ _ c _ (lookup_insert_eq _ _ _)).
    by rewrite insert_insert_eq.
  - destruct (schedule_lines _ _ _ _ _) as [[ts|] evs]; simpl; [|done].
    f_equal.
    rewrite (alter_present _ data1 c r Hr).
    rewrite (alter_present _ _ c _ (lookup_insert_eq _ _ _)).
    by rewrite insert_insert_eq.
  - destruct (generate_message _ _) as [ai ev1]. simpl. f_equal.
    rewrite (alter_present _ data1 c r Hr).
    rewrite (alter_present _ _ c _ (lookup_insert_eq _ _ _)).
    by rewrite insert_insert_eq.
  - by destruct (generate_message _ _) as [ai ev1].
Qed.

Lemma handle_message_loaded (model : generator) (clock : nat → datetime)
    (f : file) (data : Store) (c text : pystr) :
  load_data f = Some data →
  handle_message model clock f c text
  = Some (from_option save_data f (handle_message_body model clock data c text).1,
          (handle_message_body model clock data c text).2).
Proof.
  intros Hl. unfold handle_message. rewrite Hl. simpl.
  by destruct (handle_message_body _ _ _ _ _).
Qed.

Lemma persisted_save (data : Store) (c : pystr) :
  persisted (save_data data) c = listify_record <$> data !! c.
Proof. unfold persisted. rewrite load_save. simpl. apply lookup_fmap. Qed.

Lemma persisted_loaded (f : file) (data : Store) (c : pystr) :
  load_data f = Some data → persisted f c = data !! c.
Proof. unfold persisted. by intros ->. Qed.

Lemma loaded_record_listified (f : file) (data : Store) (c : pystr) (r : ChatRecord) :
  load_data f = Some data → data !! c = Some r → listify_record r = r.
Proof.
  intros Hl Hc. apply load_data_listified in Hl.
  rewrite <- Hl in Hc. unfold listify in Hc.
  rewrite lookup_fmap in Hc.
  destruct (data !! c) as [r0|]; [|done]. simpl in Hc.
  injection Hc as <-. apply listify_record_idemp.
Qed.

Lemma current_present (data : Store) (c : pystr) (r : ChatRecord) :
  data !! c = Some r → current data c = r.
Proof. unfold current. by intros ->. Qed.

Lemma mode_present (data : Store) (c : pystr) (m : pystr) :
  data !! c ≫= mode = Some m → ∃ r, data !! c = Some r ∧ mode r = Some m.
Proof. destruct (data !! c) as [r|]; [|done]. by exists r. Qed.

(** C5: a text handled while the chat is in plan mode leaves the chat in
    schedule mode, whatever the text generator does (the statement holds
    for every [model], the one that raises included). *)
Theorem plan_mode_becomes_schedule (model : generator) (clock : nat → datetime)
    (f : file) (data : Store) (c text : pystr) :
  load_data f = Some data →
  data !! c ≫= mode = Some PLAN →
  ∃ f' evs, handle_message model clock f c text = Some (f', evs)
            ∧ persisted f' c ≫= mode = Some SCHEDULE.
Proof.
  intros Hl Hm. destruct (mode_present _ _ _ Hm) as (r & Hc & Hr).
  rewrite (handle_message_loaded _ _ _ _ _ _ Hl).
  pose proof (body_saved model clock data c text) as Hb. simpl in Hb.
  rewrite (current_present _ _ _ Hc) in Hb.
  rewrite decide_True in Hb by done. rewrite Hb. simpl.
  eexists _, _. split; [done|].
  rewrite persisted_save, lookup_insert_eq. done.
Qed.

(** C10: when the stored record of the chat has a mode that is neither
    plan, schedule nor reflect, handling a message generates one reply and
    sends it, and writes back the dict it read: the record of the chat (and
    of every other chat) is as it was. *)
Theorem free_chat_leaves_record (model : generator) (clock : nat → datetime)
    (f : file) (data : Store) (c text : pystr) (r : ChatRecord) :
  load_data f = Some data →
  data !! c = Some r →
  mode r ≠ Some PLAN → mode r ≠ Some SCHEDULE → mode r ≠ Some REFLECT →
  ∃ f', handle_message model clock f c text
        = Some (f', (generate_message model (free_prompt text)).2
                    ++ send_long_message c (generate_message model (free_prompt text)).1)
        ∧ load_data f' = Some data
        ∧ persisted f' c = Some r.
Proof.
  intros Hl Hc Hp Hs Hr.
  rewrite (handle_message_loaded _ _ _ _ _ _ Hl).
  unfold handle_message_body.
  rewrite (ensure_record_present _ _ _ Hc), Hc. simpl.
  rewrite !decide_False by done.
  destruct (generate_message _ _) as [reply ev1]. simpl.
  eexists. split; [done|].
  assert (load_data (save_data data) = Some data) as Hls by by eapply load_save_loaded.
  split; [done|]. unfold persisted. by rewrite Hls.
Qed.

(** ** Schedule submissions *)

Lemma parse_line_split (line time_part task_part : pystr) :
  parse_line line = Some (time_part, task_part) →
  split_first SPACE line = Some (time_part, task_part) ∧ is_Some (strptime time_part).
Proof.
  unfold parse_line. intros H.
  destruct (split_first SPACE line) as [[t d]|]; [|done]. simpl in H.
  destruct (strptime t) eqn:E; [|done]. simpl in H. by simplify_eq.
Qed.

Lemma schedule_task_one (now : datetime) (c time_str task : pystr) :
  ∃ e, schedule_task now c time_str task = [e] ∧ sent_texts [e] = [].
Proof.
  unfold schedule_task. destruct (scheduled_time now time_str); by eexists.
Qed.

Lemma schedule_lines_accepts (clock : nat → datetime) (c : pystr) (lines : list pystr) :
  Forall (λ l, is_Some (parse_line l)) lines →
  ∀ k acc, ∃ ts,
    schedule_lines clock c lines k acc = (Some (acc ++ ts), reminders clock c lines k)
    ∧ Forall2 line_of_task lines ts.
Proof.
  induction 1 as [|line rest [[t d] Hline] _ IH]; intros k acc.
  - exists []. simpl. by rewrite app_nil_r.
  - simpl. rewrite Hline.
    destruct (IH (S k) (acc ++ [mk_task PyTuple t d])) as (ts & -> & Hts).
    exists (mk_task PyTuple t d :: ts). split.
    + by rewrite <- app_assoc.
    + constructor; [|done]. by apply parse_line_split in Hline as [? _].
Qed.

Lemma schedule_lines_refuses (clock : nat → datetime) (c : pystr)
    (pre : list pystr) (bad : pystr) (post : list pystr) :
  Forall (λ l, is_Some (parse_line l)) pre →
  parse_line bad = None →
  ∀ k acc,
    schedule_lines clock c (pre ++ bad :: post) k acc
    = (None, reminders clock c pre k ++ [SendMessage c (bad_line_text bad)]).
Proof.
  intros Hpre Hbad.
  induction Hpre as [|line rest [[t d] Hline] _ IH]; intros k acc.
  - simpl. by rewrite Hbad.
  - simpl. rewrite Hline, IH. by rewrite app_assoc.
Qed.

Lemma reminders_no_send (clock : nat → datetime) (c : pystr) (lines : list pystr) :
  Forall (λ l, is_Some (parse_line l)) lines →
  ∀ k, sent_texts (reminders clock c lines k) = []
       ∧ length (reminders clock c lines k) = length lines.
Proof.
  induction 1 as [|line rest [[t d] Hline] _ IH]; intros k; [done|].
  simpl. rewrite Hline.
  destruct (schedule_task_one (clock k) c t d) as (e & -> & He).
  destruct (IH (S k)) as [IH1 IH2]. split.
  - unfold sent_texts in *. by rewrite omap_app, He, IH1.
  - rewrite length_app, IH2. done.
Qed.

Lemma body_schedule (model : generator) (clock : nat → datetime)
    (data : Store) (c text : pystr) (r : ChatRecord) :
  data !! c = Some r → mode r = Some SCHEDULE →
  handle_message_body model clock data c text
  = match schedule_lines clock c (split_on NL (strip text)) 0 [] with
    | (None, evs) => (None, evs)
    | (Some ts, evs) =>
        (Some (<[c := mk_record (diary r) None ts]> data),
         evs ++ [SendMessage c SCHEDULE_OK])
    end.
Proof.
  intros Hc Hr. unfold handle_message_body.
  rewrite (ensure_record_present _ _ _ Hc), Hc. simpl. rewrite Hr.
  rewrite decide_False by done. rewrite decide_True by done.
  destruct (schedule_lines _ _ _ _ _) as [[ts|] evs]; [|done].
  f_equal. f_equal.
  rewrite (alter_present _ data c r Hc).
  rewrite (alter_present _ _ c _ (lookup_insert_eq _ _ _)).
  by rewrite insert_insert_eq.
Qed.

(** C1 (as amended): when every line of a text received in schedule mode
    is accepted, the stored tasks are one pair per line, in the order of
    the lines, each made of the text before the first space of its line,
    as it was typed, and of the text after it; the mode becomes none; one
    reminder is spawned per line and the confirmation is sent. *)
Theorem schedule_submission_stored (model : generator) (clock : nat → datetime)
    (f : file) (data : Store) (c text : pystr) :
  load_data f = Some data →
  data !! c ≫= mode = Some SCHEDULE →
  Forall (λ l, is_Some (parse_line l)) (split_on NL (strip text)) →
  ∃ f' r',
    handle_message model clock f c text
    = Some (f', reminders clock c (split_on NL (strip text)) 0
                ++ [SendMessage c SCHEDULE_OK])
    ∧ persisted f' c = Some r'
    ∧ mode r' = None
    ∧ Forall2 line_of_task (split_on NL (strip text)) (tasks r').
Proof.
  intros Hl Hm Hlines. destruct (mode_present _ _ _ Hm) as (r & Hc & Hr).
  rewrite (handle_message_loaded _ _ _ _ _ _ Hl).
  rewrite (body_schedule _ _ _ _ _ _ Hc Hr).
  destruct (schedule_lines_accepts clock c _ Hlines 0 []) as (ts & -> & Hts).
  simpl. eexists _, _. split; [done|].
  rewrite persisted_save, lookup_insert_eq. simpl.
  split; [done|]. split; [done|].
  clear -Hts. induction Hts; csimpl; constructor; auto.
Qed.

(** C2 (as amended): when, among the lines of the text received in
    schedule mode once [strip] took the white space off its two ends, line
    k is refused and the lines before it are accepted, the handler spawns
    the reminders of the lines before it, sends one message, which is the
    error text spelled out below around line k as it stands in the stripped
    text, and returns: the lines after k play no part, and the data file
    is the one the handler found, so the stored mode is still schedule and
    the stored tasks are the old ones. *)
Theorem malformed_line_aborts (model : generator) (clock : nat → datetime)
    (f : file) (data : Store) (c text : pystr)
    (pre : list pystr) (bad : pystr) (post : list pystr) :
  load_data f = Some data →
  data !! c ≫= mode = Some SCHEDULE →
  split_on NL (strip text) = pre ++ bad :: post →
  Forall (λ l, is_Some (parse_line l)) pre →
  parse_line bad = None →
  ∃ evs,
    handle_message model clock f c text = Some (f, evs)
    ∧ evs = reminders clock c pre 0
            ++ [SendMessage c (str "⚠️ Неверный формат строки: '" ++ bad
                               ++ str "'. Используй формат 'HH:MM Задание'")]
    ∧ sent_texts evs = [str "⚠️ Неверный формат строки: '" ++ bad
                        ++ str "'. Используй формат 'HH:MM Задание'"]
    ∧ persisted f c = data !! c
    ∧ persisted f c ≫= mode = Some SCHEDULE.
Proof.
  intros Hl Hm Hsplit Hpre Hbad.
  destruct (mode_present _ _ _ Hm) as (r & Hc & Hr).
  rewrite (handle_message_loaded _ _ _ _ _ _ Hl).
  rewrite (body_schedule _ _ _ _ _ _ Hc Hr), Hsplit.
  rewrite (schedule_lines_refuses clock c pre bad post Hpre Hbad). simpl.
  eexists. split; [done|]. split; [done|].
  split; [|split].
  - unfold sent_texts. rewrite omap_app.
    destruct (reminders_no_send clock c pre Hpre 0) as [Hno _].
    unfold sent_texts in Hno. by rewrite Hno.
  - by apply persisted_loaded.
  - by rewrite (persisted_loaded _ _ _ Hl).
Qed.

(** ** The diary *)

(** Two different mode names cannot both be the mode of a record. *)
Ltac mode_clash :=
  match goal with
  | H1 : ?m = Some ?a, H2 : ?m = Some ?b |- _ =>
      exfalso; rewrite H1 in H2; vm_compute in H2; discriminate
  end.

Lemma body_none_present (model : generator) (clock : nat → datetime)
    (data : Store) (c text : pystr) :
  (handle_message_body model clock data c text).1 = None →
  ∃ r, data !! c = Some r ∧ mode r = Some SCHEDULE.
Proof.
  rewrite body_saved. simpl. unfold current.
  destruct (data !! c) as [r|] eqn:E; simpl.
  - repeat case_decide; try done. intros _. by exists r.
  - repeat case_decide; done.
Qed.

Lemma body_diary (model : generator) (clock : nat → datetime)
    (data d : Store) (c text : pystr) :
  (handle_message_body model clock data c text).1 = Some d →
  (∃ r', d !! c = Some r'
         ∧ diary r' = diary (current data c) ++ diary_gain (mode (current data c)) text)
  ∧ (∀ k, k ≠ c → d !! k = data !! k).
Proof.
  rewrite body_saved. simpl.
  assert (Hother : ∀ k, k ≠ c → ensure_record c data !! k = data !! k).
  { intros k Hk. unfold ensure_record. destruct (data !! c); [done|].
    by rewrite lookup_insert_ne. }
  unfold diary_gain.
  repeat case_decide; try congruence; try mode_clash.
  - intros [= <-]. split.
    + eexists. by rewrite lookup_insert_eq.
    + intros k Hk. rewrite lookup_insert_ne by done. by apply Hother.
  - destruct (schedule_lines _ _ _ _ _).1 as [ts|]; [|done]. simpl.
    intros [= <-]. split.
    + eexists. rewrite lookup_insert_eq. split; [done|]. simpl. by rewrite app_nil_r.
    + intros k Hk. rewrite lookup_insert_ne by done. by apply Hother.
  - intros [= <-]. split.
    + eexists. by rewrite lookup_insert_eq.
    + intros k Hk. rewrite lookup_insert_ne by done. by apply Hother.
  - intros [= <-]. split; [|done].
    eexists. rewrite ensure_record_lookup. split; [done|]. by rewrite app_nil_r.
Qed.

(** C6 (as amended): handling a message leaves the stored diary of the chat
    as it was, with at most one entry added at its end: the entry of type
    [T_PLANS] and of the text received when the mode was plan, the entry of
    type [T_REFLECTION] and of the text received when the mode was reflect,
    nothing in any other mode; the diaries of the other chats are as they
    were. *)
Theorem diary_append_only (model : generator) (clock : nat → datetime)
    (f : file) (data : Store) (c text : pystr) :
  load_data f = Some data →
  ∃ f' evs r',
    handle_message model clock f c text = Some (f', evs)
    ∧ persisted f' c = Some r'
    ∧ diary r' = diary (current data c) ++ diary_gain (mode (current data c)) text
    ∧ ∀ k, k ≠ c → diary <$> persisted f' k = diary <$> persisted f k.
Proof.
  intros Hl. rewrite (handle_message_loaded _ _ _ _ _ _ Hl).
  destruct (handle_message_body model clock data c text).1 as [d|] eqn:Hb; simpl.
  - destruct (body_diary _ _ _ _ _ _ Hb) as [(r' & Hr' & Hd) Hother].
    eexists _, _, _. split; [done|].
    rewrite persisted_save, Hr'. simpl. split; [done|]. split; [done|].
    intros k Hk. rewrite persisted_save, (persisted_loaded _ _ _ Hl), (Hother k Hk).
    by destruct (data !! k).
  - destruct (body_none_present _ _ _ _ _ Hb) as (r & Hc & Hr).
    eexists _, _, r. split; [done|].
    rewrite (persisted_loaded _ _ _ Hl). split; [done|].
    rewrite (current_present _ _ _ Hc). unfold diary_gain.
    rewrite Hr, !decide_False by done. by rewrite app_nil_r.
Qed.

(** ** Every chat that wrote has its record *)

Lemma body_keys (model : generator) (clock : nat → datetime)
    (data d : Store) (c text : pystr) :
  (handle_message_body model clock data c text).1 = Some d →
  is_Some (d !! c) ∧ ∀ k, is_Some (data !! k) → is_Some (d !! k).
Proof.
  intros Hb. destruct (body_diary _ _ _ _ _ _ Hb) as [(r' & Hr' & _) Hother].
  split; [by eexists|].
  intros k Hk. destruct (decide (k = c)) as [->|Hne]; [by eexists|].
  by rewrite Hother.
Qed.

Lemma listify_keeps (data : Store) (k : pystr) :
  is_Some (data !! k) → is_Some (listify data !! k).
Proof. unfold listify. rewrite lookup_fmap. intros [r ->]. by eexists. Qed.

(** A handler that starts and goes on to its end at once does to the data
    file what the handler does as a function of the file. *)
Lemma pending_atomic (greeting : pystr) (j : job) (f : file) :
  from_option save_data f <$> pending j f
  = fst <$> match j with
            | Message c text model clock => handle_message model clock f c text
            | Start c => start greeting f c
            | Morning models => morning_routine models f
            | Evening => evening_routine f
            end.
Proof.
  unfold pending, handle_message, start, morning_routine, evening_routine.
  destruct (load_data f) as [data|]; [|by destruct j]. simpl.
  destruct j as [c text model clock|c|models|]; simpl; try done.
  by destruct (handle_message_body model clock data c text).
Qed.

(** What a job will save holds every chat of the file it found, and the
    chat that sent it. *)
Lemma pending_keys (j : job) (f : file) (data : Store) :
  load_data f = Some data →
  ∃ p, pending j f = Some p
       ∧ ∀ d, p = Some d →
              (∀ k, is_Some (data !! k) → is_Some (d !! k))
              ∧ (∀ c, sender j = Some c → is_Some (d !! c)).
Proof.
  intros Hl. unfold pending. rewrite Hl. simpl. eexists. split; [done|].
  intros d Hd. destruct j as [c text model clock|c|models|]; simpl in *.
  - destruct (body_keys _ _ _ _ _ _ Hd) as [Hc Hk]. split; [done|].
    by intros ? [= <-].
  - injection Hd as <-. split.
    + intros k Hk. by apply ensure_record_keeps.
    + intros ? [= <-]. rewrite ensure_record_lookup. by eexists.
  - injection Hd as <-. split; [|done].
    intros k [r Hk]. rewrite lookup_fmap, Hk. by eexists.
  - injection Hd as <-. split; [|done].
    intros k [r Hk]. rewrite lookup_fmap, Hk. by eexists.
Qed.

(** A handler that returns without saving was sent by a chat of the file
    it found. *)
Lemma pending_none (j : job) (f : file) (data : Store) (c : pystr) :
  load_data f = Some data → pending j f = Some None → sender j = Some c →
  is_Some (data !! c).
Proof.
  intros Hl. unfold pending. rewrite Hl. simpl. intros [= Hp] Hs.
  destruct j as [c' text model clock|c'|models|]; simpl in *; try done.
  injection Hs as ->.
  destruct (body_none_present _ _ _ _ _ Hp) as (r & Hc & _). by eexists.
Qed.

Lemma holds_play (c : pystr) (w : world) (m : move) : holds c w → holds c (play w m).
Proof.
  intros [(d & Hd & Hc) Hw]. destruct m as [j|i]; simpl.
  - destruct (pending_keys j (disk w) (listify d)) as (p & Hp & Hkeys).
    { rewrite Hd. apply load_save. }
    rewrite Hp. split; simpl; [by exists d|].
    apply Forall_app. split; [done|]. constructor; [|constructor].
    intros d' ->. destruct (Hkeys d' eq_refl) as [Hk _].
    by apply Hk, listify_keeps.
  - destruct (waiting w !! i) as [p|] eqn:Hi; [|by split; [exists d|]].
    split; simpl.
    + destruct p as [d'|]; simpl.
      * exists d'. split; [done|]. by eapply (Forall_lookup_1 _ _ _ _ Hw Hi).
      * by exists d.
    + by apply Forall_delete.
Qed.

Lemma holds_plays (c : pystr) (moves : list move) :
  ∀ w, holds c w → holds c (plays w moves).
Proof.
  induction moves as [|m moves IH]; intros w Hw; [done|].
  apply (IH (play w m)). by apply holds_play.
Qed.

(** A handler that meets no waiting handler and runs from its
    [load_data] to its end leaves its chat in the file. *)
Lemma holds_first (c : pystr) (w : world) (j : job) :
  waiting w = [] →
  disk w = None ∨ (∃ data, disk w = save_data data) →
  sender j = Some c →
  holds c (play (play w (Arrive j)) (Resume 0)).
Proof.
  intros Hw Hdisk Hs.
  assert (∃ data, load_data (disk w) = Some data
                  ∧ (is_Some (data !! c) → ∃ d, disk w = save_data d ∧ is_Some (d !! c)))
    as (data & Hl & Hback).
  { destruct Hdisk as [->|[d ->]].
    - exists ∅. split; [done|]. intros [? H]. by rewrite lookup_empty in H.
    - exists (listify d). split; [apply load_save|].
      intros [r Hr]. exists d. split; [done|].
      unfold listify in Hr. rewrite lookup_fmap in Hr.
      destruct (d !! c); [by eexists|done]. }
  destruct (pending_keys j (disk w) data Hl) as (p & Hp & Hkeys).
  simpl. rewrite Hp, Hw. simpl. split; simpl; [|constructor].
  destruct p as [d|]; simpl.
  - exists d. split; [done|]. by apply (Hkeys d eq_refl).
  - apply Hback. by eapply pending_none.
Qed.

(** A file written by [save_data] lists a chat of the dict once. *)
Lemma members_once {A B} (g : A → B) (l : list (pystr * A)) (c : pystr) :
  NoDup l.*1 → c ∈ l.*1 →
  length (filter (λ kv, kv.1 = c) (prod_map id g <$> l)) = 1.
Proof.
  induction l as [|[k a] l IH]; csimpl; intros Hnd Hin.
  - by apply elem_of_nil in Hin.
  - apply NoDup_cons in Hnd as [Hk Hnd].
    destruct (decide (k = c)) as [->|Hne].
    + rewrite filter_cons_True by done. simpl. f_equal.
      clear IH Hin. induction l as [|[k' a'] l IH]; [done|]. csimpl in *.
      apply not_elem_of_cons in Hk as [Hne Hk]. apply NoDup_cons in Hnd as [_ Hnd].
      rewrite filter_cons_False by (simpl; congruence). by apply IH.
    + rewrite filter_cons_False by done.
      apply elem_of_cons in Hin as [->|Hin]; [done|]. by apply IH.
Qed.

Lemma saved_once (d : Store) (c : pystr) :
  is_Some (d !! c) →
  ∃ members, save_data d = Some (JObj members)
             ∧ length (filter (λ kv, kv.1 = c) members) = 1.
Proof.
  intros [r Hr]. eexists. split; [done|].
  apply members_once; [apply NoDup_fst_map_to_list|].
  apply list_elem_of_fmap. exists (c, r). split; [done|].
  by apply elem_of_map_to_list.
Qed.

(** C4 (as amended): once the handler of a message or of [/start] of a
    chat has run from its [load_data] to its end while no other handler
    was waiting, the data file holds a record for the chat, listed once,
    and keeps it whatever handlers and routines run afterwards and in
    whatever order they wait and go on; this holds whatever the message
    says.  The data file at the start is absent or was written by
    [save_data]. *)
Theorem contacted_chat_has_record (w : world) (j : job) (c : pystr) (moves : list move) :
  waiting w = [] →
  disk w = None ∨ (∃ data, disk w = save_data data) →
  sender j = Some c →
  ∃ members r,
    disk (plays w (Arrive j :: Resume 0 :: moves)) = Some (JObj members)
    ∧ length (filter (λ kv, kv.1 = c) members) = 1
    ∧ persisted (disk (plays w (Arrive j :: Resume 0 :: moves))) c = Some r.
Proof.
  intros Hw Hdisk Hs.
  pose proof (holds_first c w j Hw Hdisk Hs) as Hfirst.
  apply (holds_plays c moves) in Hfirst.
  change (plays (play (play w (Arrive j)) (Resume 0)) moves)
    with (plays w (Arrive j :: Resume 0 :: moves)) in Hfirst.
  destruct Hfirst as [(d & Hd & Hc) _].
  destruct (saved_once d c Hc) as (members & Hm & Hone).
  rewrite Hd. destruct Hc as [r Hr].
  exists members, (listify_record r). split; [done|]. split; [done|].
  by rewrite persisted_save, Hr.
Qed.

(** ** The data file round trip *)

(** C7 (as amended): reading back what [save_data] wrote gives the store
    that was saved with every task read as a list; a store whose tasks are
    lists already, such as one that was read from the file, is read back
    as it is. *)
Theorem load_save_roundtrip (x : Store) :
  load_data (save_data x) = Some (listify x)
  ∧ load_data (save_data (listify x)) = Some (listify x)
  ∧ ∀ f, load_data f = Some x → load_data (save_data x) = Some x.
Proof.
  split; [apply load_save|]. split.
  - by rewrite load_save, listify_idemp.
  - intros f Hf. by eapply load_save_loaded.
Qed.

(** ** Reminders *)

Lemma py_decimal_lt (c : char) (v : N) : py_decimal c = Some v → (v < 10)%N.
Proof.
  unfold py_decimal.
  destruct (List.find _ _) as [s|] eqn:E; [|done]. simpl. intros [= <-].
  apply List.find_some in E as [_ E].
  apply andb_prop in E as [_ E%N.ltb_lt]. lia.
Qed.

Lemma py_decimal_ascii (c : char) : in_class 48 57 c = true → py_decimal c = Some (c - 48)%N.
Proof.
  unfold in_class. intros [H1%N.leb_le H2%N.leb_le]%andb_prop.
  unfold py_decimal, Nd_starts. cbn [List.find].
  assert ((48 <=? c)%N && (c <? 48 + 10)%N = true) as ->; [|done].
  apply andb_true_intro. split; [by apply N.leb_le|apply N.ltb_lt; lia].
Qed.

Lemma digit_value_range (c : char) : (0 ≤ digit_value c ≤ 9)%Z.
Proof.
  unfold digit_value. destruct (py_decimal c) as [v|] eqn:E; simpl; [|lia].
  apply py_decimal_lt in E. lia.
Qed.

Lemma digit_value_class (lo hi c : char) :
  (48 ≤ lo)%N → (hi ≤ 57)%N → in_class lo hi c = true →
  (Z.of_N lo - 48 ≤ digit_value c ≤ Z.of_N hi - 48)%Z.
Proof.
  intros Hlo Hhi Hc. unfold digit_value.
  rewrite py_decimal_ascii.
  - unfold in_class in Hc. apply andb_prop in Hc as [H1%N.leb_le H2%N.leb_le].
    simpl. lia.
  - unfold in_class in *. apply andb_prop in Hc as [H1%N.leb_le H2%N.leb_le].
    apply andb_true_intro. split; apply N.leb_le; lia.
Qed.

Lemma py_int_1 (a : char) : py_int [a] = digit_value a.
Proof. unfold py_int, digit_value. simpl. lia. Qed.

Lemma py_int_2 (a b : char) : py_int [a; b] = (digit_value a * 10 + digit_value b)%Z.
Proof. unfold py_int, digit_value. simpl. lia. Qed.

Lemma alts_H_range (s h r : pystr) : (h, r) ∈ alts_H s → (0 ≤ py_int h ≤ 23)%Z.
Proof.
  unfold alts_H. destruct s as [|a [|b s]].
  - by intros ?%elem_of_nil.
  - destruct (is_digit a); [|by intros ?%elem_of_nil].
    intros [= -> ->]%list_elem_of_singleton. rewrite py_int_1.
    pose proof (digit_value_range a). lia.
  - rewrite !elem_of_app. intros [H|[H|H]].
    + destruct ((a =? 50)%N && in_class 48 51 b) eqn:E; [|by apply elem_of_nil in H].
      apply list_elem_of_singleton in H as [= -> ->].
      apply andb_prop in E as [->%N.eqb_eq Eb]. rewrite py_int_2.
      pose proof (digit_value_class 48%N 51%N b ltac:(lia) ltac:(lia) Eb).
      change (digit_value 50%N) with 2%Z. lia.
    + destruct (in_class 48 49 a && is_digit b) eqn:E; [|by apply elem_of_nil in H].
      apply list_elem_of_singleton in H as [= -> ->].
      apply andb_prop in E as [Ea _]. rewrite py_int_2.
      pose proof (digit_value_class 48%N 49%N a ltac:(lia) ltac:(lia) Ea).
      pose proof (digit_value_range b). lia.
    + destruct (is_digit a); [|by apply elem_of_nil in H].
      apply list_elem_of_singleton in H as [= -> ->]. rewrite py_int_1.
      pose proof (digit_value_range a). lia.
Qed.

Lemma alts_M_range (s m r : pystr) : (m, r) ∈ alts_M s → (0 ≤ py_int m ≤ 59)%Z.
Proof.
  unfold alts_M. destruct s as [|a [|b s]].
  - by intros ?%elem_of_nil.
  - destruct (is_digit a); [|by intros ?%elem_of_nil].
    intros [= -> ->]%list_elem_of_singleton. rewrite py_int_1.
    pose proof (digit_value_range a). lia.
  - rewrite !elem_of_app. intros [H|H].
    + destruct (in_class 48 53 a && is_digit b) eqn:E; [|by apply elem_of_nil in H].
      apply list_elem_of_singleton in H as [= -> ->].
      apply andb_prop in E as [Ea _]. rewrite py_int_2.
      pose proof (digit_value_class 48%N 53%N a ltac:(lia) ltac:(lia) Ea).
      pose proof (digit_value_range b). lia.
    + destruct (is_digit a); [|by apply elem_of_nil in H].
      apply list_elem_of_singleton in H as [= -> ->]. rewrite py_int_1.
      pose proof (digit_value_range a). lia.
Qed.

(** A time that [strptime] accepts is a time of day. *)
Lemma strptime_HM_range (s : pystr) (h m : Z) :
  strptime_HM s = Some (h, m) → (0 ≤ h ≤ 23 ∧ 0 ≤ m ≤ 59)%Z.
Proof.
  unfold strptime_HM.
  destruct (re_match_HM s) as [[[ht mt] rest]|] eqn:E; [|done].
  destruct rest; [|done]. intros [= <- <-].
  unfold re_match_HM in E. apply head_Some_elem_of in E.
  apply list_elem_of_bind in E as ([h' r1] & E & Hh).
  destruct r1 as [|col r2]; [by apply elem_of_nil in E|].
  destruct (col =? COLON)%N; [|by apply elem_of_nil in E].
  apply list_elem_of_bind in E as ([m' r3] & E & Hm).
  apply list_elem_of_singleton in E as [= -> -> _].
  split; [by eapply alts_H_range|by eapply alts_M_range].
Qed.

Lemma lead_minutes_range (h m : Z) :
  (0 ≤ lead_minutes h m / 60 < 24 ∧ 0 ≤ lead_minutes h m mod 60 < 60)%Z.
Proof.
  unfold lead_minutes.
  pose proof (Z.mod_pos_bound (h * 60 + m - 10) 1440 ltac:(lia)).
  split; [|apply Z.mod_pos_bound; lia].
  split; [apply Z.div_pos; lia|apply Z.div_lt_upper_bound; lia].
Qed.

Lemma lead_time (h m : Z) :
  (0 ≤ h ≤ 23)%Z → (0 ≤ m ≤ 59)%Z →
  ∃ task_time,
    dt_sub {| dt_day := 693596; dt_hour := h; dt_minute := m;
              dt_second := 0; dt_micro := 0 |} (td_minutes 10) = Some task_time
    ∧ dt_hour task_time = (lead_minutes h m / 60)%Z
    ∧ dt_minute task_time = (lead_minutes h m mod 60)%Z.
Proof.
  intros Hh Hm. unfold dt_sub.
  assert (in_range (of_us (to_us {| dt_day := 693596; dt_hour := h; dt_minute := m;
                                    dt_second := 0; dt_micro := 0 |}
                           - td_minutes 10)) = true) as ->.
  { unfold in_range, of_us, to_us, td_minutes, MAXORDINAL. simpl.
    apply andb_true_intro. split; apply Z.leb_le; Z.div_mod_to_equations; lia. }
  eexists. split; [done|].
  unfold of_us, to_us, td_minutes, lead_minutes. simpl.
  split; Z.div_mod_to_equations; lia.
Qed.

Lemma next_day (d H M : Z) :
  (0 ≤ H < 24)%Z → (0 ≤ M < 60)%Z → (1 ≤ d)%Z →
  dt_add {| dt_day := d; dt_hour := H; dt_minute := M; dt_second := 0; dt_micro := 0 |}
         (td_days 1)
  = if decide (d < MAXORDINAL)%Z
    then Some {| dt_day := d + 1; dt_hour := H; dt_minute := M;
                 dt_second := 0; dt_micro := 0 |}
    else None.
Proof.
  intros HH HM Hd. unfold dt_add.
  assert (of_us (to_us {| dt_day := d; dt_hour := H; dt_minute := M;
                          dt_second := 0; dt_micro := 0 |} + td_days 1)
          = {| dt_day := d + 1; dt_hour := H; dt_minute := M;
               dt_second := 0; dt_micro := 0 |}) as ->.
  { unfold of_us, to_us, td_days. simpl. f_equal; Z.div_mod_to_equations; lia. }
  unfold in_range. simpl. case_decide.
  - rewrite andb_true_intro; [done|]. split; apply Z.leb_le; lia.
  - rewrite (proj2 (Z.leb_gt (d + 1) MAXORDINAL)) by lia. by rewrite andb_false_r.
Qed.

(** On two datetimes of the interpreter, [<] compares the microseconds
    that have passed. *)
Lemma dt_ltb_lt (a b : datetime) :
  valid_datetime a → valid_datetime b →
  dt_ltb a b = true ↔ (to_us a < to_us b)%Z.
Proof.
  destruct a as [d1 h1 m1 s1 u1], b as [d2 h2 m2 s2 u2].
  unfold valid_datetime, dt_ltb, dt_fields, to_us. simpl.
  intros (?&?&?&?) (?&?&?&?).
  rewrite !orb_true_iff, !andb_true_iff, !orb_true_iff, !andb_true_iff,
    !orb_true_iff, !andb_true_iff, !orb_true_iff, !andb_true_iff.
  rewrite !Z.ltb_lt, !Z.eqb_eq. split; [|intros Hlt]; nia.
Qed.

Lemma reminder_on_valid (d h m : Z) : valid_datetime (reminder_on d h m).
Proof.
  destruct (lead_minutes_range h m). unfold valid_datetime, reminder_on. simpl. lia.
Qed.

(** The three ways [scheduled_time] ends for a time that [strptime] reads. *)
Lemma scheduled_time_cases (now : datetime) (time_str : pystr) (h m : Z) :
  clock_reading now →
  strptime_HM time_str = Some (h, m) →
  ((to_us now ≤ to_us (reminder_on (dt_day now) h m))%Z →
   scheduled_time now time_str = Some (reminder_on (dt_day now) h m))
  ∧ ((to_us (reminder_on (dt_day now) h m) < to_us now)%Z →
     (dt_day now < MAXORDINAL)%Z →
     scheduled_time now time_str = Some (reminder_on (dt_day now + 1) h m))
  ∧ ((to_us (reminder_on (dt_day now) h m) < to_us now)%Z →
     dt_day now = MAXORDINAL →
     scheduled_time now time_str = None).
Proof.
  intros [Hnow Hday] Hs. destruct (strptime_HM_range _ _ _ Hs) as [Hh Hm].
  destruct (lead_time h m Hh Hm) as (task_time & Hsub & Hhour & Hminute).
  destruct (lead_minutes_range h m) as [HH HM].
  pose proof (dt_ltb_lt (reminder_on (dt_day now) h m) now
                (reminder_on_valid _ h m) Hnow) as Hlt.
  assert (scheduled_time now time_str
          = if dt_ltb (reminder_on (dt_day now) h m) now
            then dt_add (reminder_on (dt_day now) h m) (td_days 1)
            else Some (reminder_on (dt_day now) h m)) as ->.
  { unfold scheduled_time, strptime. rewrite Hs.
    cbv beta iota zeta delta [mbind option_bind]. rewrite Hsub.
    cbv beta iota zeta delta [mbind option_bind]. by rewrite Hhour, Hminute. }
  assert (dt_add (reminder_on (dt_day now) h m) (td_days 1)
          = if decide (dt_day now < MAXORDINAL)%Z
            then Some (reminder_on (dt_day now + 1) h m) else None) as ->
    by (unfold reminder_on; apply next_day; lia).
  destruct (dt_ltb _ now) eqn:E.
  - apply proj1 in Hlt. specialize (Hlt eq_refl). split; [lia|]. split.
    + intros _ Hd. by rewrite decide_True.
    + intros _ Hd. rewrite decide_False by lia. done.
  - assert (¬ (to_us (reminder_on (dt_day now) h m) < to_us now)%Z) as Hge.
    { intros Hc. apply Hlt in Hc. congruence. }
    split; [done|]. split; intros; lia.
Qed.


(** ** The scenarios of the specification *)

(** C1 (as stated) fails on its own example: the stored time of the line
    "8:00 Math" is the text "8:00", not "08:00". *)
Lemma schedule_example_time_as_typed :
  stored_pairs (handle_message silent seven_oclock (file42 (Some SCHEDULE)) chat42 two_lines)
               chat42
  = Some [(str "8:00", str "Math"); (str "9:30", str "Walk")]
  ∧ stored_pairs (handle_message silent seven_oclock (file42 (Some SCHEDULE)) chat42 two_lines)
                 chat42
    ≠ Some [(str "08:00", str "Math"); (str "09:30", str "Walk")].
Proof. split; [by vm_compute|]. vm_compute. discriminate. Qed.

(** The schedule of two lines, sent at seven, is accepted and stored. *)
Lemma schedule_submission_stored_witness :
  ∃ f' r',
    handle_message silent seven_oclock (file42 (Some SCHEDULE)) chat42 two_lines
    = Some (f', reminders seven_oclock chat42 (split_on NL (strip two_lines)) 0
                ++ [SendMessage chat42 SCHEDULE_OK])
    ∧ persisted f' chat42 = Some r'
    ∧ mode r' = None
    ∧ Forall2 line_of_task (split_on NL (strip two_lines)) (tasks r').
Proof.
  apply (schedule_submission_stored silent seven_oclock (file42 (Some SCHEDULE))
           (store42 (Some SCHEDULE)) chat42 two_lines).
  - vm_compute. reflexivity.
  - vm_compute. reflexivity.
  - replace (split_on NL (strip two_lines)) with [str "8:00 Math"; str "9:30 Walk"]
      by (vm_compute; reflexivity).
    repeat (constructor; [eexists; vm_compute; reflexivity|]). constructor.
Defined.

(** The schedule whose second line is "badline". *)
Lemma malformed_line_aborts_witness :
  ∃ evs,
    handle_message silent seven_oclock (file42 (Some SCHEDULE)) chat42 bad_second_line
    = Some (file42 (Some SCHEDULE), evs)
    ∧ evs = reminders seven_oclock chat42 [str "8:00 Math"] 0
            ++ [SendMessage chat42
                  (str "⚠️ Неверный формат строки: '" ++ str "badline"
                   ++ str "'. Используй формат 'HH:MM Задание'")]
    ∧ sent_texts evs = [str "⚠️ Неверный формат строки: '" ++ str "badline"
                        ++ str "'. Используй формат 'HH:MM Задание'"]
    ∧ persisted (file42 (Some SCHEDULE)) chat42 = store42 (Some SCHEDULE) !! chat42
    ∧ persisted (file42 (Some SCHEDULE)) chat42 ≫= mode = Some SCHEDULE.
Proof.
  apply (malformed_line_aborts silent seven_oclock (file42 (Some SCHEDULE))
           (store42 (Some SCHEDULE)) chat42 bad_second_line
           [str "8:00 Math"] (str "badline") []).
  - vm_compute. reflexivity.
  - vm_compute. reflexivity.
  - vm_compute. reflexivity.
  - constructor; [eexists; vm_compute; reflexivity|constructor].
  - vm_compute. reflexivity.
Defined.

(** C2 (as stated) fails.  The first line of the text [after_blank_line] is
    empty, so it is refused as a schedule line; yet the handler answers
    with the confirmation and leaves schedule mode, because [strip] took
    the empty line away before the text was cut into lines.  And the text
    [bad_line_with_space], whose second line is "badline " with a space at
    its end, is answered with the error text around "badline", not around
    the line as it was typed. *)
Lemma malformed_line_not_always_reported :
  (head (split_on NL after_blank_line) ≫= parse_line = None
   ∧ (sent_texts <$> (snd <$> handle_message silent seven_oclock (file42 (Some SCHEDULE))
                                chat42 after_blank_line))
     = Some [SCHEDULE_OK]
   ∧ (handle_message silent seven_oclock (file42 (Some SCHEDULE)) chat42 after_blank_line
      ≫= λ res, persisted res.1 chat42) ≫= mode = None)
  ∧ (split_on NL bad_line_with_space !! 1 = Some (str "badline ")
     ∧ (sent_texts <$> (snd <$> handle_message silent seven_oclock (file42 (Some SCHEDULE))
                                  chat42 bad_line_with_space))
       = Some [str "⚠️ Неверный формат строки: '" ++ str "badline"
               ++ str "'. Используй формат 'HH:MM Задание'"]
     ∧ (sent_texts <$> (snd <$> handle_message silent seven_oclock (file42 (Some SCHEDULE))
                                  chat42 bad_line_with_space))
       ≠ Some [str "⚠️ Неверный формат строки: '" ++ str "badline "
               ++ str "'. Используй формат 'HH:MM Задание'"]).
Proof.
  repeat split; by vm_compute.
Qed.


(** At seven the same reminder is set for 7:50 on the same day. *)
Example reminder_same_day :
  schedule_task (seven_oclock 0) chat42 (str "8:00") (str "Math")
  = [RunCoroutine chat42 (str "Math") 3000000000%Z].
Proof. reflexivity. Qed.


(** With no data file yet, chat 7 sends a message; then the morning
    routine and a message of chat 42 wait on one another. *)
Lemma contacted_chat_has_record_witness :
  ∃ members r,
    disk (plays (mk_world None [])
            (Arrive (Message (str "7") (str "8:00 Math") silent seven_oclock)
             :: Resume 0
             :: [Arrive (Morning (λ _, silent));
                 Arrive (Message chat42 homework silent seven_oclock);
                 Resume 1; Resume 0]))
    = Some (JObj members)
    ∧ length (filter (λ kv, kv.1 = str "7") members) = 1
    ∧ persisted
        (disk (plays (mk_world None [])
                 (Arrive (Message (str "7") (str "8:00 Math") silent seven_oclock)
                  :: Resume 0
                  :: [Arrive (Morning (λ _, silent));
                      Arrive (Message chat42 homework silent seven_oclock);
                      Resume 1; Resume 0])))
        (str "7") = Some r.
Proof.
  apply (contacted_chat_has_record (mk_world None [])
           (Message (str "7") (str "8:00 Math") silent seven_oclock) (str "7")
           [Arrive (Morning (λ _, silent));
            Arrive (Message chat42 homework silent seven_oclock);
            Resume 1; Resume 0]).
  - reflexivity.
  - by left.
  - reflexivity.
Defined.

(** C4 (as stated) fails.  The store holds chat 42.  The morning routine
    reads it and waits for the text generator; chat 7 sends its first
    message, whose handler reads the store, waits, and saves the store
    with the record of chat 7; then the morning routine goes on and saves
    what it had read: chat 7 has sent a message and has no record. *)
Lemma first_contact_lost :
  persisted
    (disk (plays (mk_world (file42 None) [])
             [Arrive (Morning (λ _, silent));
              Arrive (Message (str "7") homework silent seven_oclock);
              Resume 1]))
    (str "7") = Some new_record
  ∧ persisted
      (disk (plays (mk_world (file42 None) [])
               [Arrive (Morning (λ _, silent));
                Arrive (Message (str "7") homework silent seven_oclock);
                Resume 1; Resume 0]))
      (str "7") = None.
Proof. split; by vm_compute. Qed.

(** The plan of the day, sent while the text generator is out of order. *)
Lemma plan_mode_becomes_schedule_witness :
  ∃ f' evs,
    handle_message silent seven_oclock (file42 (Some PLAN)) chat42 homework = Some (f', evs)
    ∧ persisted f' chat42 ≫= mode = Some SCHEDULE.
Proof.
  apply (plan_mode_becomes_schedule silent seven_oclock (file42 (Some PLAN))
           (store42 (Some PLAN)) chat42 homework).
  - vm_compute. reflexivity.
  - vm_compute. reflexivity.
Defined.

(** A message of a chat at rest. *)
Lemma free_chat_leaves_record_witness :
  ∃ f',
    handle_message silent seven_oclock (file42 None) chat42 homework
    = Some (f', (generate_message silent (free_prompt homework)).2
                ++ send_long_message chat42 (generate_message silent (free_prompt homework)).1)
    ∧ load_data f' = Some (store42 None)
    ∧ persisted f' chat42 = Some (mk_record [] None []).
Proof.
  apply (free_chat_leaves_record silent seven_oclock (file42 None) (store42 None)
           chat42 homework (mk_record [] None [])).
  - vm_compute. reflexivity.
  - vm_compute. reflexivity.
  - discriminate.
  - discriminate.
  - discriminate.
Defined.

(** C6 (as stated) fails: the entry written in plan mode carries the type
    "планы", not "plan". *)
Lemma plan_entry_type_as_written :
  stored_diary (handle_message silent seven_oclock (file42 (Some PLAN)) chat42 homework)
               chat42
  = Some [mk_entry (str "планы") homework]
  ∧ stored_diary (handle_message silent seven_oclock (file42 (Some PLAN)) chat42 homework)
                 chat42
    ≠ Some [mk_entry (str "plan") homework].
Proof. split; [by vm_compute|]. vm_compute. discriminate. Qed.

(** A reflection, sent in reflect mode. *)
Lemma diary_append_only_witness :
  ∃ f' evs r',
    handle_message silent seven_oclock (file42 (Some REFLECT)) chat42 homework
    = Some (f', evs)
    ∧ persisted f' chat42 = Some r'
    ∧ diary r' = diary (current (store42 (Some REFLECT)) chat42)
                 ++ diary_gain (mode (current (store42 (Some REFLECT)) chat42)) homework
    ∧ ∀ k, k ≠ chat42 →
           diary <$> persisted f' k = diary <$> persisted (file42 (Some REFLECT)) k.
Proof.
  apply (diary_append_only silent seven_oclock (file42 (Some REFLECT))
           (store42 (Some REFLECT)) chat42 homework).
  vm_compute. reflexivity.
Defined.

(** C7 (as stated) fails: the dict saved after the schedule "8:00 Math"
    holds the task as a tuple, and what is read back holds it as a list. *)
Lemma load_save_not_identity :
  (handle_message_body silent seven_oclock (store42 (Some SCHEDULE)) chat42
     (str "8:00 Math")).1 = Some saved42
  ∧ load_data (save_data saved42) ≠ Some saved42.
Proof.
  split; [by vm_compute|].
  intros H. apply (f_equal (λ o, o ≫= (.!! chat42))) in H.
  vm_compute in H. discriminate.
Qed.

(** * Further properties of the source *)

(** ** String methods *)

Lemma split_first_Some (sep : char) (s a b : pystr) :
  split_first sep s = Some (a, b) ↔ s = a ++ sep :: b ∧ sep ∉ a.
Proof.
  revert a. induction s as [|c s IH]; intros a; simpl.
  - split; [done|]. intros [H _]. by destruct a.
  - destruct (N.eqb_spec c sep) as [->|Hne].
    + split.
      * intros [= <- <-]. split; [done|]. apply not_elem_of_nil.
      * intros [H Hin]. destruct a as [|x a]; simpl in H.
        -- by injection H as ->.
        -- injection H as -> _. exfalso. apply Hin. left.
    + destruct (split_first sep s) as [[a' b']|] eqn:E; simpl.
      * split.
        -- intros [= <- <-]. destruct (proj1 (IH a') eq_refl) as [-> Hin].
           split; [done|]. rewrite not_elem_of_cons. split; [congruence|done].
        -- intros [H Hin]. destruct a as [|x a]; simpl in H; [congruence|].
           injection H as <- ->. apply not_elem_of_cons in Hin as [_ Hin].
           assert (Some (a', b') = Some (a, b)) as [= -> ->]; [|done].
           apply IH. done.
      * split; [done|]. intros [H Hin].
        destruct a as [|x a]; simpl in H; [congruence|].
        injection H as <- ->. apply not_elem_of_cons in Hin as [_ Hin].
        assert (None = Some (a, b)); [|done]. by apply IH.
Qed.

Lemma split_first_None (sep : char) (s : pystr) :
  split_first sep s = None ↔ sep ∉ s.
Proof.
  induction s as [|c s IH]; simpl.
  - split; [intros _; apply not_elem_of_nil|done].
  - destruct (N.eqb_spec c sep) as [->|Hne].
    + split; [done|]. intros H. exfalso. apply H. left.
    + rewrite not_elem_of_cons. destruct (split_first sep s) as [[a b]|]; simpl.
      * split; [done|]. intros [_ H]. by apply IH in H.
      * split; [|done]. intros _. split; [congruence|]. by apply IH.
Qed.

Lemma split_on_cons (sep : char) (s : pystr) : ∃ h t, split_on sep s = h :: t.
Proof.
  destruct s as [|c s]; simpl; [by eexists _, _|].
  destruct (c =? sep)%N; [by eexists _, _|].
  destruct (split_on sep s); by eexists _, _.
Qed.

Lemma join_split_on (sep : char) (s : pystr) : join sep (split_on sep s) = s.
Proof.
  induction s as [|c s IH]; [done|]. simpl.
  destruct (split_on_cons sep s) as (h & t & E). rewrite E in IH |- *.
  destruct (N.eqb_spec c sep) as [->|Hne].
  - simpl in *. by rewrite IH.
  - simpl in *. destruct t; simpl; by rewrite <- IH.
Qed.

Lemma split_on_no_sep (sep : char) (s : pystr) :
  Forall (λ part, sep ∉ part) (split_on sep s).
Proof.
  induction s as [|c s IH]; simpl.
  - constructor; [apply not_elem_of_nil|constructor].
  - destruct (N.eqb_spec c sep) as [->|Hne].
    + constructor; [apply not_elem_of_nil|done].
    + destruct (split_on sep s) as [|h t].
      * constructor; [|done]. rewrite not_elem_of_cons. split; [congruence|apply not_elem_of_nil].
      * apply Forall_cons in IH as [Hh Ht]. constructor; [|done].
        rewrite not_elem_of_cons. split; [congruence|done].
Qed.

Lemma length_split_on (sep : char) (s : pystr) :
  length (split_on sep s) = S (length (filter (λ c, c = sep) s)).
Proof.
  induction s as [|c s IH]; [done|]. simpl.
  destruct (split_on_cons sep s) as (h & t & E). rewrite E in IH |- *.
  destruct (N.eqb_spec c sep) as [->|Hne].
  - rewrite filter_cons_True by done. simpl in *. by rewrite IH.
  - rewrite filter_cons_False by done. done.
Qed.

(** X1: the lines of a text, as [split("\n")] cuts them: there is at least
    one line, one more than the text has line feeds; no line holds a line
    feed; joined by line feeds they give the text back. *)
Theorem split_lines_join (s : pystr) :
  join NL (split_on NL s) = s
  ∧ length (split_on NL s) = S (length (filter (λ c, c = NL) s))
  ∧ Forall (λ line, NL ∉ line) (split_on NL s).
Proof.
  split; [apply join_split_on|]. split; [apply length_split_on|apply split_on_no_sep].
Qed.

Lemma lstrip_spec (s : pystr) :
  ∃ l, s = l ++ lstrip s ∧ all_space l
       ∧ ∀ c, head (lstrip s) = Some c → py_isspace c = false.
Proof.
  induction s as [|c s (l & Hs & Hl & Hh)]; simpl.
  - exists []. split; [done|]. split; [constructor|done].
  - destruct (py_isspace c) eqn:E.
    + exists (c :: l). split; [simpl; by f_equal|]. split; [by constructor|done].
    + exists []. split; [done|]. split; [constructor|]. simpl. by intros ? [= <-].
Qed.

Lemma rstrip_spec (s : pystr) :
  ∃ r, s = rstrip s ++ r ∧ all_space r
       ∧ ∀ c, last (rstrip s) = Some c → py_isspace c = false.
Proof.
  unfold rstrip. destruct (lstrip_spec (reverse s)) as (l & Hs & Hl & Hh).
  exists (reverse l). split; [|split].
  - rewrite <- reverse_app, <- Hs. by rewrite reverse_involutive.
  - by apply Forall_reverse.
  - intros c. rewrite last_reverse. apply Hh.
Qed.

Lemma lstrip_id (s : pystr) :
  (∀ c, head s = Some c → py_isspace c = false) → lstrip s = s.
Proof. destruct s as [|c s]; [done|]. simpl. intros H. by rewrite (H c). Qed.

Lemma rstrip_id (s : pystr) :
  (∀ c, last s = Some c → py_isspace c = false) → rstrip s = s.
Proof.
  intros H. unfold rstrip. rewrite lstrip_id; [apply reverse_involutive|].
  intros c. rewrite head_reverse. apply H.
Qed.

Lemma strip_trimmed (s : pystr) : trimmed (strip s).
Proof.
  unfold strip. destruct (lstrip_spec s) as (l & _ & _ & Hh).
  destruct (rstrip_spec (lstrip s)) as (r & Hr & _ & Hl).
  split; [|done]. intros c Hc. apply Hh. rewrite Hr.
  destruct (rstrip (lstrip s)); [done|]. done.
Qed.

(** X2: [strip] takes away white space at the two ends and nothing else:
    the text is the stripped text between two runs of white space; the
    stripped text neither starts nor ends with white space; stripping it
    again changes nothing. *)
Theorem strip_ends (text : pystr) :
  (∃ l r, text = l ++ strip text ++ r ∧ all_space l ∧ all_space r)
  ∧ trimmed (strip text)
  ∧ strip (strip text) = strip text.
Proof.
  split; [|split].
  - unfold strip. destruct (lstrip_spec text) as (l & Hs & Hl & _).
    destruct (rstrip_spec (lstrip text)) as (r & Hr & Hall & _).
    exists l, r. split; [|done]. rewrite <- Hr. done.
  - apply strip_trimmed.
  - destruct (strip_trimmed text) as [Hh Hl].
    unfold strip at 1. rewrite (lstrip_id _ Hh). by apply rstrip_id.
Qed.

(** ** Schedule lines *)

(** X3: a schedule line is accepted exactly when it is a time that
    [strptime] reads, one space, and the rest of the line: the time holds no
    space, the description is everything after the first space, spaces
    included; a line without a space is refused. *)
Theorem parse_line_accepts (line time_part task_part : pystr) :
  ((parse_line line = Some (time_part, task_part))
   ↔ (line = time_part ++ SPACE :: task_part
      ∧ (SPACE ∉ time_part)
      ∧ ∃ h m, strptime_HM time_part = Some (h, m) ∧ (0 ≤ h ≤ 23)%Z ∧ (0 ≤ m ≤ 59)%Z))
  ∧ (SPACE ∉ line → parse_line line = None).
Proof.
  split.
  - split.
    + intros H. apply parse_line_split in H as [Hsplit [dt Hdt]].
      apply split_first_Some in Hsplit as [-> Hno]. split; [done|]. split; [done|].
      unfold strptime in Hdt.
      destruct (strptime_HM time_part) as [[h m]|] eqn:E; [|done].
      exists h, m. split; [done|]. by apply strptime_HM_range in E.
    + intros (Hline & Hno & h & m & Hs & _).
      unfold parse_line.
      rewrite (proj2 (split_first_Some SPACE line time_part task_part)) by done.
      simpl. unfold strptime. by rewrite Hs.
  - intros Hno. unfold parse_line.
    by rewrite (proj2 (split_first_None SPACE line)).
Qed.

(** ** Chunked send, part by part *)

Lemma range_count (n len i : nat) : 0 < n → i < (len + n - 1) / n ↔ i * n < len.
Proof.
  intros Hn.
  pose proof (Nat.div_mod_eq (len + n - 1) n) as Hdm.
  pose proof (Nat.mod_upper_bound (len + n - 1) n ltac:(lia)) as Hlt.
  split; intros H; nia.
Qed.

Lemma chunks_lookup (n : nat) (text : pystr) (i : nat) :
  0 < n →
  chunks n text !! i
  = if decide (i * n < length text) then Some (take n (drop (i * n) text)) else None.
Proof.
  intros Hn. unfold chunks, py_range. rewrite !list_lookup_fmap.
  case_decide as Hi.
  - rewrite lookup_seq_lt by by apply range_count.
    simpl. unfold slice. do 2 f_equal. lia.
  - rewrite lookup_seq_ge; [done|].
    apply Nat.nlt_ge. intros Hlt. by apply range_count in Hlt.
Qed.

(** X4: the parts [send_long_message] sends: their number is the length of
    the text divided by 4096, rounded up, so that an empty text is not sent
    at all; no part is empty; every part but the last has 4096 characters;
    a text that is not empty and has at most 4096 characters is sent as it
    is, in one message. *)
Theorem send_long_message_parts (chat_id text : pystr) :
  length (send_long_message chat_id text) = (length text + 4095) / 4096
  ∧ (∀ i part, sent_texts (send_long_message chat_id text) !! i = Some part →
       part ≠ []
       ∧ (S i < length (send_long_message chat_id text) → length part = 4096))
  ∧ (text ≠ [] → length text ≤ 4096 →
       send_long_message chat_id text = [SendMessage chat_id text]).
Proof.
  assert (Hpos : 0 < MAX_LEN) by (unfold MAX_LEN; lia).
  assert (Hlen : length (send_long_message chat_id text) = (length text + 4095) / 4096).
  { unfold send_long_message. rewrite length_fmap, (length_chunks MAX_LEN).
    unfold MAX_LEN. f_equal. lia. }
  split; [done|]. split.
  - intros i part. unfold send_long_message. rewrite sent_texts_sends.
    rewrite (chunks_lookup MAX_LEN text i Hpos).
    case_decide as Hi; [|done]. intros [= <-]. split.
    + assert (0 < length (take MAX_LEN (drop (i * MAX_LEN) text))) as Hpart
        by (rewrite length_take, length_drop; unfold MAX_LEN in *; lia).
      intros Hnil. rewrite Hnil in Hpart. simpl in Hpart. lia.
    + rewrite length_fmap, (length_chunks MAX_LEN). intros Hnext.
      apply (range_count MAX_LEN (length text) (S i) Hpos) in Hnext.
      rewrite length_take, length_drop. unfold MAX_LEN in *. lia.
  - intros Hne Hshort. apply list_eq. intros i.
    unfold send_long_message. rewrite list_lookup_fmap.
    rewrite (chunks_lookup MAX_LEN text i Hpos).
    destruct i as [|i].
    + rewrite decide_True by (destruct text; [done|simpl; lia]).
      simpl. rewrite take_ge by done. done.
    + rewrite decide_False by (unfold MAX_LEN; lia). done.
Qed.

(** ** Times of day *)

Lemma forallb_seqZ (P : Z → bool) (n : Z) :
  forallb P (seqZ 0 n) = true → ∀ x, (0 ≤ x < n)%Z → P x = true.
Proof.
  intros H x Hx. rewrite forallb_forall in H. apply H.
  apply list_elem_of_In, elem_of_seqZ. lia.
Qed.

Lemma strptime_time_text (h m : Z) :
  (0 ≤ h ≤ 23)%Z → (0 ≤ m ≤ 59)%Z → strptime_HM (time_text h m) = Some (h, m).
Proof.
  intros Hh Hm.
  assert (forallb (λ h, forallb (λ m,
            bool_decide (strptime_HM (time_text h m) = Some (h, m)))
            (seqZ 0 60)) (seqZ 0 24) = true) as Hall by (vm_compute; reflexivity).
  pose proof (forallb_seqZ _ _ Hall h ltac:(lia)) as Hrow. cbv beta in Hrow.
  pose proof (forallb_seqZ _ _ Hrow m ltac:(lia)) as Hcell. cbv beta in Hcell.
  by apply bool_decide_eq_true in Hcell.
Qed.

Lemma strptime_short_time_text (h m : Z) :
  (0 ≤ h ≤ 9)%Z → (0 ≤ m ≤ 59)%Z → strptime_HM (short_time_text h m) = Some (h, m).
Proof.
  intros Hh Hm.
  assert (forallb (λ h, forallb (λ m,
            bool_decide (strptime_HM (short_time_text h m) = Some (h, m)))
            (seqZ 0 60)) (seqZ 0 10) = true) as Hall by (vm_compute; reflexivity).
  pose proof (forallb_seqZ _ _ Hall h ltac:(lia)) as Hrow. cbv beta in Hrow.
  pose proof (forallb_seqZ _ _ Hrow m ltac:(lia)) as Hcell. cbv beta in Hcell.
  by apply bool_decide_eq_true in Hcell.
Qed.

Lemma strptime_out_of_range (h m : Z) :
  (0 ≤ h ≤ 99)%Z → (0 ≤ m ≤ 99)%Z → (24 ≤ h ∨ 60 ≤ m)%Z →
  strptime_HM (time_text h m) = None.
Proof.
  intros Hh Hm Hout.
  assert (forallb (λ h, forallb (λ m,
            bool_decide ((24 ≤ h ∨ 60 ≤ m)%Z → strptime_HM (time_text h m) = None))
            (seqZ 0 100)) (seqZ 0 100) = true) as Hall by (vm_compute; reflexivity).
  pose proof (forallb_seqZ _ _ Hall h ltac:(lia)) as Hrow. cbv beta in Hrow.
  pose proof (forallb_seqZ _ _ Hrow m ltac:(lia)) as Hcell. cbv beta in Hcell.
  apply bool_decide_eq_true in Hcell. by apply Hcell.
Qed.

(** X5: every time of day from 00:00 to 23:59, written with two digits for
    the hour and two for the minute, is read by [strptime] as that hour
    and minute, and so is a time with an hour of one digit ("8:00"); a text
    of the same shape whose hour is 24 or more, or whose minute is 60 or
    more, is refused. *)
Theorem strptime_reads_times (h m : Z) :
  ((0 ≤ h ≤ 23)%Z → (0 ≤ m ≤ 59)%Z → strptime_HM (time_text h m) = Some (h, m))
  ∧ ((0 ≤ h ≤ 9)%Z → (0 ≤ m ≤ 59)%Z → strptime_HM (short_time_text h m) = Some (h, m))
  ∧ ((0 ≤ h ≤ 99)%Z → (0 ≤ m ≤ 99)%Z → (24 ≤ h ∨ 60 ≤ m)%Z →
     strptime_HM (time_text h m) = None).
Proof.
  split; [apply strptime_time_text|].
  split; [apply strptime_short_time_text|apply strptime_out_of_range].
Qed.

(** ** The delay of a reminder *)

Lemma schedule_task_delay (now : datetime) (c time_str task : pystr) :
  clock_reading now →
  is_Some (strptime time_str) →
  (∃ delay,
     schedule_task now c time_str task = [RunCoroutine c task delay]
     ∧ (0 ≤ delay < 86400000000)%Z
     ∧ ((to_us now + delay) mod 60000000 = 0)%Z)
  ∨ (dt_day now = MAXORDINAL
     ∧ schedule_task now c time_str task = [LogError LOG_SCHEDULE]).
Proof.
  intros Hnow [parsed Hp]. unfold strptime in Hp.
  destruct (strptime_HM time_str) as [[h m]|] eqn:Hs; [|done].
  destruct (scheduled_time_cases now time_str h m Hnow Hs) as (Htoday & Hnext & Hlast).
  destruct (lead_minutes_range h m) as [HH HM].
  destruct Hnow as [(?&?&?&?) Hday].
  unfold schedule_task, dt_diff.
  destruct (Z_le_gt_dec (to_us now) (to_us (reminder_on (dt_day now) h m))) as [Hle|Hgt].
  - left. rewrite (Htoday Hle). eexists. split; [done|].
    destruct now as [d h' m' s' u']. unfold to_us, reminder_on in *. simpl in *.
    split; [lia|]. apply Z.mod_divide; [lia|].
    exists ((d * 24 + lead_minutes h m / 60) * 60 + lead_minutes h m mod 60)%Z. lia.
  - destruct (decide (dt_day now < MAXORDINAL)%Z) as [Hd|Hd].
    + left. rewrite (Hnext ltac:(lia) Hd). eexists. split; [done|].
      destruct now as [d h' m' s' u']. unfold to_us, reminder_on in *. simpl in *.
      split; [lia|]. apply Z.mod_divide; [lia|].
      exists (((d + 1) * 24 + lead_minutes h m / 60) * 60 + lead_minutes h m mod 60)%Z. lia.
    + right. assert (dt_day now = MAXORDINAL) as Hlastday by lia.
      split; [done|]. by rewrite (Hlast ltac:(lia) Hlastday).
Qed.



(** ** The message handler: whom it writes to, and what *)

Lemma send_long_message_addressed (c text : pystr) :
  Forall (addressed_to c) (send_long_message c text).
Proof. unfold send_long_message. apply Forall_fmap, Forall_forall. by intros. Qed.

Lemma generate_message_addressed (model : generator) (prompt c : pystr) :
  Forall (addressed_to c) (generate_message model prompt).2.
Proof.
  unfold generate_message. destruct (model prompt); simpl; repeat constructor.
Qed.

Lemma schedule_task_addressed (now : datetime) (c time_str task : pystr) :
  Forall (addressed_to c) (schedule_task now c time_str task).
Proof.
  unfold schedule_task. destruct (scheduled_time _ _); repeat constructor.
Qed.

Lemma schedule_lines_addressed (clock : nat → datetime) (c : pystr) (lines : list pystr) :
  ∀ k acc, Forall (addressed_to c) (schedule_lines clock c lines k acc).2.
Proof.
  induction lines as [|line rest IH]; intros k acc; simpl; [constructor|].
  destruct (parse_line line) as [[t d]|]; [|repeat constructor].
  specialize (IH (S k) (acc ++ [mk_task PyTuple t d])).
  destruct (schedule_lines _ _ _ _ _) as [res evs]. simpl in *.
  apply Forall_app. split; [apply schedule_task_addressed|done].
Qed.

(** X7: whatever the mode and the text, every message [handle_message]
    sends goes to the chat that wrote, and every reminder it spawns is for
    that chat. *)
Theorem handle_message_addressed (model : generator) (clock : nat → datetime)
    (data : Store) (c text : pystr) :
  Forall (addressed_to c) (handle_message_body model clock data c text).2.
Proof.
  unfold handle_message_body.
  repeat case_decide.
  - pose proof (generate_message_addressed model (plan_prompt text) c) as Hg.
    destruct (generate_message _ _) as [reply ev1]. simpl in *.
    apply Forall_app. split; [done|apply send_long_message_addressed].
  - pose proof (schedule_lines_addressed clock c (split_on NL (strip text)) 0 []) as Hs.
    destruct (schedule_lines _ _ _ _ _) as [[ts|] evs]; simpl in *; [|done].
    apply Forall_app. split; [done|repeat constructor].
  - pose proof (generate_message_addressed model (reflect_prompt text) c) as Hg.
    destruct (generate_message _ _) as [reply ev1]. simpl in *.
    apply Forall_app. split; [done|apply send_long_message_addressed].
  - pose proof (generate_message_addressed model (free_prompt text) c) as Hg.
    destruct (generate_message _ _) as [reply ev1]. simpl in *.
    apply Forall_app. split; [done|apply send_long_message_addressed].
Qed.

Lemma sent_texts_app (evs1 evs2 : list event) :
  sent_texts (evs1 ++ evs2) = sent_texts evs1 ++ sent_texts evs2.
Proof. unfold sent_texts. apply omap_app. Qed.

Lemma generate_message_no_send (model : generator) (prompt : pystr) :
  sent_texts (generate_message model prompt).2 = [].
Proof. unfold generate_message. by destruct (model prompt). Qed.

Lemma sent_long_message (c text : pystr) :
  concat (sent_texts (send_long_message c text)) = text.
Proof.
  unfold send_long_message. rewrite sent_texts_sends.
  apply concat_chunks. unfold MAX_LEN. lia.
Qed.

(** X8: outside schedule mode the user receives the whole reply: the texts
    sent, put end to end, are the reply of the mode (the advice and the
    instructions in plan mode, the answer behind its mark in reflect mode,
    the answer alone otherwise), built on what [generate_message] returned,
    the fallback text included; nothing of it is cut off. *)
Theorem reply_is_complete (model : generator) (clock : nat → datetime)
    (data : Store) (c text : pystr) :
  mode (current data c) ≠ Some SCHEDULE →
  concat (sent_texts (handle_message_body model clock data c text).2)
  = reply_text model (mode (current data c)) text.
Proof.
  intros Hmode. unfold handle_message_body, reply_text.
  rewrite ensure_record_lookup. fold (current data c). simpl.
  repeat case_decide; try done; try mode_clash.
  - pose proof (generate_message_no_send model (plan_prompt text)) as Hg.
    destruct (generate_message _ _) as [reply ev1]. cbn [fst snd] in *.
    by rewrite sent_texts_app, Hg, app_nil_l, sent_long_message.
  - pose proof (generate_message_no_send model (reflect_prompt text)) as Hg.
    destruct (generate_message _ _) as [reply ev1]. cbn [fst snd] in *.
    by rewrite sent_texts_app, Hg, app_nil_l, sent_long_message.
  - pose proof (generate_message_no_send model (free_prompt text)) as Hg.
    destruct (generate_message _ _) as [reply ev1]. cbn [fst snd] in *.
    by rewrite sent_texts_app, Hg, app_nil_l, sent_long_message.
Qed.

(** The plan of the day, while the text generator is out of order. *)
Lemma reply_is_complete_witness :
  concat (sent_texts (handle_message_body silent seven_oclock (store42 (Some PLAN))
                        chat42 homework).2)
  = reply_text silent (mode (current (store42 (Some PLAN)) chat42)) homework.
Proof.
  apply (reply_is_complete silent seven_oclock (store42 (Some PLAN)) chat42 homework).
  vm_compute. discriminate.
Defined.

(** ** The message handler: the store it leaves *)

Lemma handle_message_others (model : generator) (clock : nat → datetime)
    (f : file) (data : Store) (c text : pystr) :
  load_data f = Some data →
  ∃ f' evs data',
    handle_message model clock f c text = Some (f', evs)
    ∧ load_data f' = Some data'
    ∧ ∀ k, k ≠ c → data' !! k = data !! k.
Proof.
  intros Hl. rewrite (handle_message_loaded _ _ _ _ _ _ Hl).
  destruct (handle_message_body model clock data c text).1 as [d|] eqn:Hb; simpl.
  - destruct (body_diary _ _ _ _ _ _ Hb) as [_ Hother].
    eexists _, _, _. split; [done|]. split; [apply load_save|].
    intros k Hk. unfold listify. rewrite lookup_fmap, (Hother k Hk).
    destruct (data !! k) as [r|] eqn:E; [|done]. simpl. f_equal.
    by eapply loaded_record_listified.
  - by eexists _, _, _.
Qed.

(** X9: handling a message of one chat leaves the record of every other
    chat as it was, adds no other chat and removes none, and leaves a data
    file that can be read. *)
Theorem other_chats_untouched (model : generator) (clock : nat → datetime)
    (f : file) (data : Store) (c text : pystr) :
  load_data f = Some data →
  ∃ f' evs,
    handle_message model clock f c text = Some (f', evs)
    ∧ is_Some (load_data f')
    ∧ ∀ k, k ≠ c → persisted f' k = persisted f k.
Proof.
  intros Hl.
  destruct (handle_message_others model clock f data c text Hl)
    as (f' & evs & data' & Hh & Hl' & Hother).
  exists f', evs. split; [done|]. split; [by eexists|].
  intros k Hk. rewrite (persisted_loaded _ _ _ Hl), (persisted_loaded _ _ _ Hl').
  by apply Hother.
Qed.

(** A message of chat 7 while chat 42 is in the middle of its schedule. *)
Lemma other_chats_untouched_witness :
  ∃ f' evs,
    handle_message silent seven_oclock (file42 (Some SCHEDULE)) (str "7") homework
    = Some (f', evs)
    ∧ is_Some (load_data f')
    ∧ ∀ k, k ≠ str "7" → persisted f' k = persisted (file42 (Some SCHEDULE)) k.
Proof.
  apply (other_chats_untouched silent seven_oclock (file42 (Some SCHEDULE))
           (store42 (Some SCHEDULE)) (str "7") homework).
  vm_compute. reflexivity.
Defined.

(** X10: the first message of a chat the store does not know creates its
    record with an empty diary, no mode and no tasks, and is answered as
    free chat whatever it says: a text that reads as a schedule spawns no
    reminder and stores no task. *)
Theorem first_contact (model : generator) (clock : nat → datetime)
    (f : file) (data : Store) (c text : pystr) :
  load_data f = Some data →
  data !! c = None →
  ∃ f',
    handle_message model clock f c text
    = Some (f', (generate_message model (free_prompt text)).2
                ++ send_long_message c (generate_message model (free_prompt text)).1)
    ∧ persisted f' c = Some new_record.
Proof.
  intros Hl Hc. rewrite (handle_message_loaded _ _ _ _ _ _ Hl).
  unfold handle_message_body, ensure_record. rewrite Hc.
  rewrite lookup_insert_eq. simpl.
  destruct (generate_message _ _) as [reply ev1]. simpl.
  eexists. split; [done|].
  by rewrite persisted_save, lookup_insert_eq.
Qed.

(** With no data file yet, chat 42 sends a schedule. *)
Lemma first_contact_witness :
  ∃ f',
    handle_message silent seven_oclock None chat42 two_lines
    = Some (f', (generate_message silent (free_prompt two_lines)).2
                ++ send_long_message chat42 (generate_message silent (free_prompt two_lines)).1)
    ∧ persisted f' chat42 = Some new_record.
Proof.
  apply (first_contact silent seven_oclock None ∅ chat42 two_lines).
  - reflexivity.
  - reflexivity.
Defined.

Lemma schedule_lines_is_Some (clock : nat → datetime) (c : pystr) (lines : list pystr) :
  ∀ k acc,
    is_Some (schedule_lines clock c lines k acc).1
    ↔ forallb (λ line, bool_decide (is_Some (parse_line line))) lines = true.
Proof.
  induction lines as [|line rest IH]; intros k acc; simpl.
  - split; [done|by eexists].
  - destruct (parse_line line) as [[t d]|] eqn:E.
    + rewrite bool_decide_eq_true_2 by by eexists. simpl.
      rewrite <- (IH (S k) (acc ++ [mk_task PyTuple t d])).
      by destruct (schedule_lines _ _ _ _ _).
    + rewrite bool_decide_eq_false_2 by by intros [? ?]. simpl.
      split; [by intros [? ?]|done].
Qed.

Lemma handle_message_own (model : generator) (clock : nat → datetime)
    (f : file) (data : Store) (c text : pystr) :
  load_data f = Some data →
  ∃ f' evs r',
    handle_message model clock f c text = Some (f', evs)
    ∧ persisted f' c = Some r'
    ∧ mode r' = next_mode (mode (current data c)) text
    ∧ diary r' = diary (current data c) ++ diary_gain (mode (current data c)) text.
Proof.
  intros Hl. rewrite (handle_message_loaded _ _ _ _ _ _ Hl).
  pose proof (body_saved model clock data c text) as Hb. simpl in Hb.
  pose proof (schedule_lines_is_Some clock c (split_on NL (strip text)) 0 []) as Hacc.
  fold (accepted text) in Hacc.
  unfold next_mode, diary_gain. rewrite Hb. clear Hb.
  repeat case_decide; try mode_clash.
  - eexists _, _, _. split; [done|]. simpl.
    rewrite persisted_save, lookup_insert_eq. done.
  - destruct (schedule_lines _ _ _ _ _).1 as [ts|]; simpl.
    + rewrite (proj1 Hacc) by by eexists.
      eexists _, _, _. split; [done|].
      rewrite persisted_save, lookup_insert_eq. simpl.
      split; [done|]. split; [done|]. by rewrite app_nil_r.
    + destruct (accepted text); [by destruct (proj2 Hacc eq_refl)|].
      unfold current in *.
      destruct (data !! c) as [r|] eqn:Hc; [|done]. simpl in *.
      exists f, (handle_message_body model clock data c text).2, r.
      split; [done|]. rewrite (persisted_loaded _ _ _ Hl).
      split; [done|]. split; [done|]. by rewrite app_nil_r.
  - eexists _, _, _. split; [done|]. simpl.
    rewrite persisted_save, lookup_insert_eq. done.
  - eexists _, _, _. split; [done|]. simpl.
    rewrite persisted_save, ensure_record_lookup. simpl.
    split; [done|]. split; [done|]. by rewrite app_nil_r.
Qed.



Lemma next_mode_known (m : option pystr) (text : pystr) :
  known_mode m → known_mode (next_mode m text).
Proof.
  unfold next_mode, known_mode. intros Hm.
  repeat case_decide; try destruct (accepted text); auto.
Qed.

Lemma diary_gain_known (m : option pystr) (text : pystr) :
  Forall known_entry (diary_gain m text).
Proof.
  unfold diary_gain.
  repeat case_decide;
    [constructor; [by left|constructor]|constructor; [by right|constructor]|constructor].
Qed.

Lemma current_sound (data : Store) (c : pystr) :
  sound_store data → sound_record (current data c).
Proof.
  intros Hs. unfold current. destruct (data !! c) as [r|] eqn:E; simpl.
  - by eapply Hs.
  - split; [by left|constructor].
Qed.

(** X12: a store in which every mode is none, plan, schedule or reflect and
    every diary entry is of type [T_PLANS] or [T_REFLECTION] is still such
    a store after [handle_message], whatever chat writes and whatever it
    writes; the store of a run that starts without a data file is one. *)
Theorem handle_message_sound (model : generator) (clock : nat → datetime)
    (f : file) (data : Store) (c text : pystr) :
  load_data f = Some data →
  sound_store data →
  ∃ f' evs data',
    handle_message model clock f c text = Some (f', evs)
    ∧ load_data f' = Some data'
    ∧ sound_store data'.
Proof.
  intros Hl Hs.
  destruct (handle_message_others model clock f data c text Hl)
    as (f' & evs & data' & Hh & Hl' & Hother).
  destruct (handle_message_own model clock f data c text Hl)
    as (f2 & evs2 & r' & Hh2 & Hr' & Hm & Hd).
  rewrite Hh in Hh2. injection Hh2 as <- <-.
  exists f', evs, data'. split; [done|]. split; [done|].
  intros k r Hk. destruct (decide (k = c)) as [->|Hne].
  - rewrite (persisted_loaded _ _ _ Hl'), Hk in Hr'. injection Hr' as ->.
    pose proof (current_sound data c Hs) as [Hcm Hcd].
    split.
    + rewrite Hm. by apply next_mode_known.
    + rewrite Hd. apply Forall_app. split; [done|apply diary_gain_known].
  - rewrite (Hother k Hne) in Hk. by eapply Hs.
Qed.

(** With no data file yet, the store is empty and so sound. *)
Lemma handle_message_sound_witness :
  ∃ f' evs data',
    handle_message silent seven_oclock None chat42 homework = Some (f', evs)
    ∧ load_data f' = Some data'
    ∧ sound_store data'.
Proof.
  apply (handle_message_sound silent seven_oclock None ∅ chat42 homework).
  - reflexivity.
  - intros k r Hk. by rewrite lookup_empty in Hk.
Defined.

(** ** The daily routines *)

Lemma texts_to_app (k : pystr) (evs1 evs2 : list event) :
  texts_to k (evs1 ++ evs2) = texts_to k evs1 ++ texts_to k evs2.
Proof. unfold texts_to. apply omap_app. Qed.

Lemma texts_to_other (k c : pystr) (evs : list event) :
  Forall (addressed_to c) evs → c ≠ k → texts_to k evs = [].
Proof.
  intros Hall Hne. unfold texts_to.
  induction Hall as [|e evs He _ IH]; [done|]. csimpl.
  destruct e as [c' t| |]; simpl in *; [|done|done].
  subst c'. by rewrite decide_False.
Qed.

Lemma texts_to_sends (k : pystr) (parts : list pystr) :
  texts_to k (SendMessage k <$> parts) = parts.
Proof.
  unfold texts_to. induction parts as [|p parts IH]; [done|].
  csimpl. rewrite decide_True by done. by f_equal.
Qed.

Lemma generate_message_no_text (k : pystr) (model : generator) (prompt : pystr) :
  texts_to k (generate_message model prompt).2 = [].
Proof. unfold generate_message. by destruct (model prompt). Qed.

(** The texts a loop over the chats of a store sends to one chat, when the
    body of the loop writes to the chat it visits only. *)
Lemma texts_to_visit {A} (g : pystr * A → list event) (l : list (pystr * A)) (k : pystr) :
  NoDup l.*1 →
  (∀ kv, Forall (addressed_to kv.1) (g kv)) →
  (k ∉ l.*1 → texts_to k (l ≫= g) = [])
  ∧ (∀ a, (k, a) ∈ l → texts_to k (l ≫= g) = texts_to k (g (k, a))).
Proof.
  intros Hnd Hg. induction l as [|[c a0] l IH]; csimpl.
  - split; [done|]. by intros a ?%elem_of_nil.
  - apply NoDup_cons in Hnd as [Hc Hnd]. destruct (IH Hnd) as [IH1 IH2].
    rewrite texts_to_app. split.
    + intros [Hne Hk]%not_elem_of_cons.
      rewrite (texts_to_other k c (g (c, a0)) (Hg (c, a0))) by done.
      by rewrite IH1.
    + intros a [[= <- <-]|Hin]%elem_of_cons.
      * rewrite IH1 by done. by rewrite app_nil_r.
      * assert (c ≠ k) as Hne.
        { intros ->. apply Hc. apply list_elem_of_fmap. by exists (k, a). }
        rewrite (texts_to_other k c (g (c, a0)) (Hg (c, a0))) by done.
        by rewrite (IH2 a Hin).
Qed.

Lemma texts_to_store {A} (g : pystr * A → list event) (m : gmap pystr A) (k : pystr) :
  (∀ kv, Forall (addressed_to kv.1) (g kv)) →
  texts_to k (map_to_list m ≫= g)
  = match m !! k with Some a => texts_to k (g (k, a)) | None => [] end.
Proof.
  intros Hg.
  destruct (texts_to_visit g (map_to_list m) k (NoDup_fst_map_to_list m) Hg) as [H1 H2].
  destruct (m !! k) as [a|] eqn:E.
  - apply H2. by apply elem_of_map_to_list.
  - apply H1. intros ([k' a] & -> & Hin)%list_elem_of_fmap.
    apply elem_of_map_to_list in Hin. simpl in *. congruence.
Qed.

Lemma set_mode_loaded (f : file) (data : Store) (m : option pystr) (k : pystr) :
  load_data f = Some data →
  persisted (save_data (set_mode m <$> data)) k = set_mode m <$> data !! k.
Proof.
  intros Hl. rewrite persisted_save, lookup_fmap.
  destruct (data !! k) as [r|] eqn:E; [|done]. simpl. f_equal.
  pose proof (loaded_record_listified f data k r Hl E) as Hr.
  destruct r as [d m0 ts]. unfold listify_record, set_mode in *. simpl in *.
  injection Hr as Hr. by rewrite Hr.
Qed.

(** X13: the morning routine puts every chat of the store in plan mode,
    whatever its mode was, keeps every diary and every list of tasks, and
    adds and removes no chat; each chat of the store receives, in one or
    more parts, the greeting built on what [generate_message] returned for
    it (the fallback text when the generator raised), and a chat that is
    not in the store receives nothing. *)
Theorem morning_routine_effect (models : pystr → generator) (f : file) (data : Store) :
  load_data f = Some data →
  ∃ f' evs,
    morning_routine models f = Some (f', evs)
    ∧ (∀ k, persisted f' k = set_mode (Some PLAN) <$> data !! k)
    ∧ (∀ k, match data !! k with
            | Some _ =>
                concat (texts_to k evs)
                = morning_text (generate_message (models k) MORNING_PROMPT).1
            | None => texts_to k evs = []
            end).
Proof.
  intros Hl. unfold morning_routine. rewrite Hl. simpl.
  eexists _, _. split; [done|]. split.
  - intros k. apply (set_mode_loaded f data _ k Hl).
  - intros k. rewrite texts_to_store.
    + destruct (data !! k) as [r|]; [|done].
      pose proof (generate_message_no_text k (models k) MORNING_PROMPT) as Hg.
      destruct (generate_message _ _) as [motivation ev]. cbn [fst snd] in *.
      rewrite texts_to_app, Hg, app_nil_l.
      unfold send_long_message. rewrite texts_to_sends.
      apply concat_chunks. unfold MAX_LEN. lia.
    + intros [c r]. simpl.
      pose proof (generate_message_addressed (models c) MORNING_PROMPT c) as Hg.
      destruct (generate_message _ _) as [motivation ev]. cbn [fst snd] in *.
      apply Forall_app. split; [done|apply send_long_message_addressed].
Qed.

(** In the morning, with the text generator out of order. *)
Lemma morning_routine_effect_witness :
  ∃ f' evs,
    morning_routine (λ _, silent) (file42 (Some SCHEDULE)) = Some (f', evs)
    ∧ (∀ k, persisted f' k = set_mode (Some PLAN) <$> store42 (Some SCHEDULE) !! k)
    ∧ (∀ k, match store42 (Some SCHEDULE) !! k with
            | Some _ =>
                concat (texts_to k evs)
                = morning_text (generate_message silent MORNING_PROMPT).1
            | None => texts_to k evs = []
            end).
Proof.
  apply (morning_routine_effect (λ _, silent) (file42 (Some SCHEDULE))
           (store42 (Some SCHEDULE))).
  vm_compute. reflexivity.
Defined.

(** X14: the evening routine puts every chat of the store in reflect mode,
    whatever its mode was, keeps every diary and every list of tasks, and
    adds and removes no chat; it sends one message to each chat of the
    store, the fixed question, and nothing to any other chat. *)
Theorem evening_routine_effect (f : file) (data : Store) :
  load_data f = Some data →
  ∃ f' evs,
    evening_routine f = Some (f', evs)
    ∧ (∀ k, persisted f' k = set_mode (Some REFLECT) <$> data !! k)
    ∧ (∀ k, texts_to k evs
            = match data !! k with Some _ => [EVENING_TEXT] | None => [] end)
    ∧ length evs = size data.
Proof.
  intros Hl. unfold evening_routine. rewrite Hl. simpl.
  eexists _, _. split; [done|]. split; [|split].
  - intros k. apply (set_mode_loaded f data _ k Hl).
  - intros k. rewrite texts_to_store.
    + destruct (data !! k) as [r|]; [|done]. simpl. by rewrite decide_True.
    + intros [c r]. simpl. by repeat constructor.
  - rewrite <- length_map_to_list.
    induction (map_to_list data) as [|[c r] l IH]; [done|]. csimpl. by f_equal.
Qed.

(** In the evening, one chat in the store. *)
Lemma evening_routine_effect_witness :
  ∃ f' evs,
    evening_routine (file42 (Some SCHEDULE)) = Some (f', evs)
    ∧ (∀ k, persisted f' k = set_mode (Some REFLECT) <$> store42 (Some SCHEDULE) !! k)
    ∧ (∀ k, texts_to k evs
            = match store42 (Some SCHEDULE) !! k with
              | Some _ => [EVENING_TEXT] | None => [] end)
    ∧ length evs = size (store42 (Some SCHEDULE)).
Proof.
  apply (evening_routine_effect (file42 (Some SCHEDULE)) (store42 (Some SCHEDULE))).
  vm_compute. reflexivity.
Defined.

(** ** An accepted schedule, reminder by reminder *)

Lemma reminders_due (clock : nat → datetime) (c : pystr) (lines : list pystr) :
  (∀ k, clock_reading (clock k) ∧ (dt_day (clock k) < MAXORDINAL)%Z) →
  Forall (λ l, is_Some (parse_line l)) lines →
  ∀ k, Forall2 (reminder_of c) lines (reminders clock c lines k).
Proof.
  intros Hclock. induction 1 as [|line rest [[t d] Hline] _ IH]; intros k; [constructor|].
  simpl. rewrite Hline.
  pose proof Hline as [_ Ht]%parse_line_split.
  destruct (Hclock k) as [Hnow Hday].
  destruct (schedule_task_delay (clock k) c t d Hnow Ht)
    as [(delay & -> & Hd & _)|[Hlast _]]; [|lia].
  simpl. constructor; [|apply IH]. by exists t, d, delay.
Qed.

Lemma accepted_Forall (text : pystr) :
  accepted text = true ↔ Forall (λ l, is_Some (parse_line l)) (split_on NL (strip text)).
Proof.
  unfold accepted. rewrite forallb_forall, Forall_forall.
  split; intros H l Hl.
  - apply list_elem_of_In in Hl. by apply H, bool_decide_eq_true in Hl.
  - apply bool_decide_eq_true, H. by apply list_elem_of_In.
Qed.

(** X15: when every line of a text received in schedule mode is accepted
    and the clock shows a day before the last of the range of dates, the
    handler spawns one reminder per line, in the order of the lines, each
    for the description of its line and due in less than 24 hours, and
    then sends one message, the confirmation; it sends no other message and
    writes no log line. *)
Theorem accepted_schedule_reminders (model : generator) (clock : nat → datetime)
    (f : file) (data : Store) (c text : pystr) :
  load_data f = Some data →
  data !! c ≫= mode = Some SCHEDULE →
  accepted text = true →
  (∀ k, clock_reading (clock k) ∧ (dt_day (clock k) < MAXORDINAL)%Z) →
  ∃ f' rems,
    handle_message model clock f c text
    = Some (f', rems ++ [SendMessage c SCHEDULE_OK])
    ∧ Forall2 (reminder_of c) (split_on NL (strip text)) rems.
Proof.
  intros Hl Hm Hacc Hclock. apply accepted_Forall in Hacc.
  destruct (mode_present _ _ _ Hm) as (r & Hc & Hr).
  rewrite (handle_message_loaded _ _ _ _ _ _ Hl).
  rewrite (body_schedule _ _ _ _ _ _ Hc Hr).
  destruct (schedule_lines_accepts clock c _ Hacc 0 []) as (ts & -> & _).
  simpl. eexists _, _. split; [done|]. by apply reminders_due.
Qed.

(** The schedule of two lines, sent at seven. *)
Lemma accepted_schedule_reminders_witness :
  ∃ f' rems,
    handle_message silent seven_oclock (file42 (Some SCHEDULE)) chat42 two_lines
    = Some (f', rems ++ [SendMessage chat42 SCHEDULE_OK])
    ∧ Forall2 (reminder_of chat42) (split_on NL (strip two_lines)) rems.
Proof.
  apply (accepted_schedule_reminders silent seven_oclock (file42 (Some SCHEDULE))
           (store42 (Some SCHEDULE)) chat42 two_lines).
  - vm_compute. reflexivity.
  - vm_compute. reflexivity.
  - vm_compute. reflexivity.
  - intros k. unfold clock_reading, valid_datetime, MAXORDINAL. simpl. lia.
Defined.

(** ** A whole day *)

Lemma load_set_mode (f : file) (data : Store) (m : option pystr) :
  load_data f = Some data →
  load_data (save_data (set_mode m <$> data)) = Some (set_mode m <$> data).
Proof.
  intros Hl. rewrite load_save. f_equal. apply map_eq. intros k.
  pose proof (set_mode_loaded f data m k Hl) as Hk.
  rewrite persisted_save in Hk.
  unfold listify. rewrite lookup_fmap, Hk. by rewrite lookup_fmap.
Qed.

Lemma handle_message_tasks (model : generator) (clock : nat → datetime)
    (f : file) (data : Store) (c text : pystr) (r : ChatRecord) :
  load_data f = Some data →
  data !! c = Some r →
  ∃ f' evs r',
    handle_message model clock f c text = Some (f', evs)
    ∧ persisted f' c = Some r'
    ∧ (mode r ≠ Some SCHEDULE → tasks r' = tasks r)
    ∧ (mode r = Some SCHEDULE → accepted text = true →
       Forall2 line_of_task (split_on NL (strip text)) (tasks r')).
Proof.
  intros Hl Hc. rewrite (handle_message_loaded _ _ _ _ _ _ Hl).
  pose proof (loaded_record_listified f data c r Hl Hc) as Hlist.
  assert (as_list <$> tasks r = tasks r) as Htasks.
  { destruct r. unfold listify_record in Hlist. simpl in *. by injection Hlist. }
  pose proof (body_saved model clock data c text) as Hb. simpl in Hb.
  rewrite (current_present _ _ _ Hc), (ensure_record_present _ _ _ Hc) in Hb.
  rewrite Hb. clear Hb. repeat case_decide; try mode_clash.
  - eexists _, _, _. split; [done|]. simpl.
    rewrite persisted_save, lookup_insert_eq. simpl.
    split; [done|]. simpl. split; [done|]. intros Hs. mode_clash.
  - destruct (schedule_lines _ _ _ _ _).1 as [ts|] eqn:Hts; simpl.
    + eexists _, _, _. split; [done|].
      rewrite persisted_save, lookup_insert_eq. simpl.
      split; [done|]. simpl. split; [done|]. intros _ Hacc%accepted_Forall.
      destruct (schedule_lines_accepts clock c _ Hacc 0 []) as (ts' & Hs & Hall).
      rewrite Hs in Hts. simpl in Hts. injection Hts as <-.
      clear -Hall. induction Hall; csimpl; constructor; auto.
    + exists f, (handle_message_body model clock data c text).2, r.
      split; [done|]. rewrite (persisted_loaded _ _ _ Hl).
      split; [done|]. split; [done|]. intros _ Hacc%accepted_Forall.
      destruct (schedule_lines_accepts clock c _ Hacc 0 []) as (ts' & Hs & _).
      rewrite Hs in Hts. done.
  - eexists _, _, _. split; [done|]. simpl.
    rewrite persisted_save, lookup_insert_eq. simpl.
    split; [done|]. simpl. split; [done|]. intros Hs. mode_clash.
  - eexists _, _, _. split; [done|]. simpl.
    rewrite persisted_save, Hc. cbn [fmap option_fmap option_map]. rewrite Hlist.
    split; [done|]. split; [done|]. by intros Hs.
Qed.

(** One message, with everything the handler does to the record of the
    chat that wrote. *)
Lemma handle_message_step (model : generator) (clock : nat → datetime)
    (f : file) (data : Store) (c text : pystr) (r : ChatRecord) :
  load_data f = Some data →
  data !! c = Some r →
  ∃ f' evs data' r',
    handle_message model clock f c text = Some (f', evs)
    ∧ load_data f' = Some data'
    ∧ data' !! c = Some r'
    ∧ mode r' = next_mode (mode r) text
    ∧ diary r' = diary r ++ diary_gain (mode r) text
    ∧ (mode r ≠ Some SCHEDULE → tasks r' = tasks r)
    ∧ (mode r = Some SCHEDULE → accepted text = true →
       Forall2 line_of_task (split_on NL (strip text)) (tasks r')).
Proof.
  intros Hl Hc.
  destruct (handle_message_others model clock f data c text Hl)
    as (f' & evs & data' & Hh & Hl' & _).
  destruct (handle_message_own model clock f data c text Hl)
    as (f2 & evs2 & r' & Hh2 & Hr' & Hm & Hd).
  destruct (handle_message_tasks model clock f data c text r Hl Hc)
    as (f3 & evs3 & r3 & Hh3 & Hr3 & Ht1 & Ht2).
  rewrite Hh in Hh2, Hh3. injection Hh2 as <- <-. injection Hh3 as <- <-.
  rewrite Hr' in Hr3. injection Hr3 as <-.
  rewrite (current_present _ _ _ Hc) in Hm, Hd.
  rewrite (persisted_loaded _ _ _ Hl') in Hr'.
  by exists f', evs, data', r'.
Qed.

Lemma after_plan (text : pystr) :
  next_mode (Some PLAN) text = Some SCHEDULE
  ∧ diary_gain (Some PLAN) text = [mk_entry T_PLANS text].
Proof.
  unfold next_mode, diary_gain.
  by rewrite (decide_True (P := Some PLAN = Some PLAN)) by done.
Qed.

Lemma after_reflect (text : pystr) :
  next_mode (Some REFLECT) text = None
  ∧ diary_gain (Some REFLECT) text = [mk_entry T_REFLECTION text].
Proof.
  unfold next_mode, diary_gain.
  rewrite (decide_False (P := Some REFLECT = Some PLAN)) by (by vm_compute).
  rewrite (decide_False (P := Some REFLECT = Some SCHEDULE)) by (by vm_compute).
  by rewrite (decide_True (P := Some REFLECT = Some REFLECT)) by done.
Qed.

Lemma after_schedule (text : pystr) :
  accepted text = true →
  next_mode (Some SCHEDULE) text = None ∧ diary_gain (Some SCHEDULE) text = [].
Proof.
  intros Hacc. unfold next_mode, diary_gain.
  rewrite (decide_False (P := Some SCHEDULE = Some PLAN)) by (by vm_compute).
  rewrite (decide_False (P := Some SCHEDULE = Some REFLECT)) by (by vm_compute).
  rewrite (decide_True (P := Some SCHEDULE = Some SCHEDULE)) by done. by rewrite Hacc.
Qed.

(** X16: a whole day of a chat the store knows.  After the morning
    routine, the plan of the chat, a schedule whose lines are all accepted,
    the evening routine and the reflection of the chat, in this order, the
    stored diary of the chat is the one of the morning followed by the plan
    and by the reflection, its mode is none again, and its tasks are those
    of the lines of the schedule, whatever its mode and its tasks were in
    the morning and whatever the text generator did. *)
Theorem day_of_a_chat (models : pystr → generator) (model : generator)
    (clock : nat → datetime) (f : file) (data : Store)
    (c plan schedule reflection : pystr) (r : ChatRecord) :
  load_data f = Some data →
  data !! c = Some r →
  accepted schedule = true →
  ∃ f' r',
    day models model clock c plan schedule reflection f = Some f'
    ∧ persisted f' c = Some r'
    ∧ diary r' = diary r ++ [mk_entry T_PLANS plan; mk_entry T_REFLECTION reflection]
    ∧ mode r' = None
    ∧ Forall2 line_of_task (split_on NL (strip schedule)) (tasks r').
Proof.
  intros Hl Hc Hacc. unfold day.
  (* the morning *)
  unfold morning_routine at 1. rewrite Hl. simpl.
  pose proof (load_set_mode f data (Some PLAN) Hl) as Hl1.
  assert ((set_mode (Some PLAN) <$> data) !! c = Some (set_mode (Some PLAN) r)) as Hc1
    by by rewrite lookup_fmap, Hc.
  (* the plan *)
  destruct (handle_message_step model clock _ _ c plan _ Hl1 Hc1)
    as (f2 & ev2 & data2 & r2 & -> & Hl2 & Hc2 & Hm2 & Hd2 & Ht2 & _).
  simpl in Hm2, Hd2, Ht2. destruct (after_plan plan) as [Hn Hg].
  rewrite Hn in Hm2. rewrite Hg in Hd2. simpl.
  (* the schedule *)
  destruct (handle_message_step model clock _ _ c schedule _ Hl2 Hc2)
    as (f3 & ev3 & data3 & r3 & -> & Hl3 & Hc3 & Hm3 & Hd3 & _ & Ht3).
  rewrite Hm2 in Hm3, Hd3. destruct (after_schedule schedule Hacc) as [Hn3 Hg3].
  rewrite Hn3 in Hm3. rewrite Hg3, app_nil_r in Hd3.
  specialize (Ht3 Hm2 Hacc). simpl.
  (* the evening *)
  unfold evening_routine at 1. rewrite Hl3. simpl.
  pose proof (load_set_mode f3 data3 (Some REFLECT) Hl3) as Hl4.
  assert ((set_mode (Some REFLECT) <$> data3) !! c = Some (set_mode (Some REFLECT) r3))
    as Hc4 by by rewrite lookup_fmap, Hc3.
  (* the reflection *)
  destruct (handle_message_step model clock _ _ c reflection _ Hl4 Hc4)
    as (f5 & ev5 & data5 & r5 & -> & Hl5 & Hc5 & Hm5 & Hd5 & Ht5 & _).
  simpl in Hm5, Hd5, Ht5. destruct (after_reflect reflection) as [Hn5 Hg5].
  rewrite Hn5 in Hm5. rewrite Hg5 in Hd5. simpl.
  exists f5, r5. split; [done|].
  rewrite (persisted_loaded _ _ _ Hl5). split; [done|]. split; [|split; [done|]].
  - rewrite Hd5, Hd3, Hd2. by rewrite <- app_assoc.
  - rewrite Ht5; [done|]. by vm_compute.
Qed.

(** The day of chat 42: its plan, the schedule of two lines, its
    reflection, with the text generator out of order. *)
Lemma day_of_a_chat_witness :
  ∃ f' r',
    day (λ _, silent) silent seven_oclock chat42 homework two_lines (str "Done.")
        (file42 (Some SCHEDULE)) = Some f'
    ∧ persisted f' chat42 = Some r'
    ∧ diary r' = diary (mk_record [] (Some SCHEDULE) [])
                 ++ [mk_entry T_PLANS homework; mk_entry T_REFLECTION (str "Done.")]
    ∧ mode r' = None
    ∧ Forall2 line_of_task (split_on NL (strip two_lines)) (tasks r').
Proof.
  apply (day_of_a_chat (λ _, silent) silent seven_oclock (file42 (Some SCHEDULE))
           (store42 (Some SCHEDULE)) chat42 homework two_lines (str "Done.")
           (mk_record [] (Some SCHEDULE) [])).
  - vm_compute. reflexivity.
  - vm_compute. reflexivity.
  - vm_compute. reflexivity.
Defined.

(** ** A blank answer *)

Lemma lstrip_all_space (s : pystr) : all_space s → lstrip s = [].
Proof. induction 1 as [|c s Hc _ IH]; [done|]. simpl. by rewrite Hc. Qed.

Lemma strip_all_space (s : pystr) : all_space s → strip s = [].
Proof. intros Hs. unfold strip. by rewrite (lstrip_all_space s Hs). Qed.

(** X17: in free chat, when the text generator returns nothing but white
    space, the handler sends no message at all: the empty reply is cut into
    no part. *)
Theorem blank_answer_sends_nothing (model : generator) (clock : nat → datetime)
    (data : Store) (c text answer : pystr) :
  mode (current data c) ≠ Some PLAN →
  mode (current data c) ≠ Some SCHEDULE →
  mode (current data c) ≠ Some REFLECT →
  model (free_prompt text) = Response answer →
  all_space answer →
  (handle_message_body model clock data c text).2 = [].
Proof.
  intros Hp Hs Hr Hmodel Hblank. unfold handle_message_body.
  rewrite ensure_record_lookup. fold (current data c). simpl.
  rewrite !decide_False by done.
  unfold generate_message. rewrite Hmodel, (strip_all_space answer Hblank).
  done.
Qed.

(** A chat at rest, answered by a line feed. *)
Lemma blank_answer_sends_nothing_witness :
  (handle_message_body (λ _, Response [NL]) seven_oclock (store42 None) chat42 homework).2
  = [].
Proof.
  apply (blank_answer_sends_nothing (λ _, Response [NL]) seven_oclock (store42 None)
           chat42 homework [NL]).
  - vm_compute. discriminate.
  - vm_compute. discriminate.
  - vm_compute. discriminate.
  - reflexivity.
  - repeat constructor.
Defined.

(** ** Text generation: failure and recovery *)

Lemma generate_recovered (model : generator) (prompt : pystr) :
  (generate_message (recovered model) prompt).1 = (generate_message model prompt).1
  ∧ sent_texts (generate_message (recovered model) prompt).2 = []
  ∧ sent_texts (generate_message model prompt).2 = [].
Proof.
  unfold generate_message, recovered. destruct (model prompt); [done|].
  split; [by vm_compute|done].
Qed.

Lemma body_recovered (model : generator) (clock : nat → datetime)
    (data : Store) (c text : pystr) :
  (handle_message_body model clock data c text).1
  = (handle_message_body (recovered model) clock data c text).1
  ∧ sent_texts (handle_message_body model clock data c text).2
    = sent_texts (handle_message_body (recovered model) clock data c text).2.
Proof.
  unfold handle_message_body. repeat case_decide.
  - destruct (generate_recovered model (plan_prompt text)) as (Hreply & Hrec & Hraw).
    destruct (generate_message model _) as [r1 e1],
             (generate_message (recovered model) _) as [r2 e2].
    cbn [fst snd] in *. subst r2. split; [done|].
    by rewrite !sent_texts_app, Hrec, Hraw.
  - by destruct (schedule_lines _ _ _ _ _) as [[ts|] evs].
  - destruct (generate_recovered model (reflect_prompt text)) as (Hreply & Hrec & Hraw).
    destruct (generate_message model _) as [r1 e1],
             (generate_message (recovered model) _) as [r2 e2].
    cbn [fst snd] in *. subst r2. split; [done|].
    by rewrite !sent_texts_app, Hrec, Hraw.
  - destruct (generate_recovered model (free_prompt text)) as (Hreply & Hrec & Hraw).
    destruct (generate_message model _) as [r1 e1],
             (generate_message (recovered model) _) as [r2 e2].
    cbn [fst snd] in *. subst r2. split; [done|].
    by rewrite !sent_texts_app, Hrec, Hraw.
Qed.

(** C9 (as amended): [generate_message] hands no [Exception] on to its
    caller.  When the call of the model raises an [Exception] it logs one
    line and returns the fallback text spelled out below; a
    [BaseException] that is no [Exception] (a cancellation) is not caught
    and reaches the caller; when the call answers, it returns the answer
    without the white space at its two ends.  On a generator that answers
    or raises an [Exception] this is the function the handlers call, and a
    handler whose generator raised saves the same store and sends the same
    messages as if the generator had answered the fallback text. *)
Theorem generate_message_recovers :
  (∀ r, (∃ s, (generate_message_call r).1 = Returns s) ↔ r ≠ Fails ABaseException)
  ∧ generate_message_call (Fails AnException)
    = (Returns (str "Сейчас не могу ответить."), [LogError (str "Ошибка Gemini: ")])
  ∧ generate_message_call (Fails ABaseException) = (Propagates ABaseException, [])
  ∧ (∀ text, ∃ s l r,
       generate_message_call (Answers text) = (Returns s, [])
       ∧ text = l ++ s ++ r ∧ all_space l ∧ all_space r ∧ trimmed s)
  ∧ (∀ (model : generator) prompt,
       generate_message_call (call_of (model prompt))
       = (Returns (generate_message model prompt).1, (generate_message model prompt).2))
  ∧ (∀ (model : generator) (clock : nat → datetime) (data : Store) (c text : pystr),
       (handle_message_body model clock data c text).1
       = (handle_message_body (recovered model) clock data c text).1
       ∧ sent_texts (handle_message_body model clock data c text).2
         = sent_texts (handle_message_body (recovered model) clock data c text).2).
Proof.
  split; [|split; [|split; [|split; [|split]]]].
  - intros [text|[|]]; simpl; split; try done; try by eexists.
    by intros [s Hs].
  - reflexivity.
  - reflexivity.
  - intros text. unfold strip.
    destruct (lstrip_spec text) as (l & Hs & Hl & _).
    destruct (rstrip_spec (lstrip text)) as (r & Hr & Hall & _).
    exists (rstrip (lstrip text)), l, r. split; [done|].
    split; [by rewrite <- Hr|]. split; [done|]. split; [done|apply strip_trimmed].
  - intros model prompt. unfold generate_message. by destruct (model prompt).
  - apply body_recovered.
Qed.

(** C9 (as stated) fails twice: an answer that starts with a space is not
    returned as it is, and a cancellation is not answered by the fallback
    text but reaches the caller. *)
Lemma generate_message_not_as_claimed :
  (generate_message_call (Answers (str " ok"))).1 ≠ Returns (str " ok")
  ∧ (generate_message_call (Fails ABaseException)).1 ≠ Returns FALLBACK
  ∧ (generate_message_call (Fails ABaseException)).1 = Propagates ABaseException.
Proof. repeat split; by vm_compute. Qed.
